(** * BillTracker: a shallow embedding of [app.py]

    The development follows the source file top to bottom: Python values and
    exceptions, the three database models, the helpers ([send_notification],
    [analyze_bill_ai]), the two background jobs ([process_mailbox],
    [check_due_dates]) and the routes [settings], [delete_bill] and
    [serve_file].

    Conventions.
    - A Python [str] is a [string], one [ascii] per character; whitespace and
      letter case are the ASCII ones.
    - A [date] is its proleptic Gregorian ordinal ([date.toordinal()]), so that
      [d1 - d2] is [(d1 - d2).days] and [d + 30] is [d + timedelta(days=30)].
    - Effects are threaded through a state-and-exception monad [M] over a
      [World] (database tables, the ORM session, the file system, the
      notifications attempted, standard output, flashed messages, the clock).
    - Whatever the program obtains from outside (environment variables, the
      clock, Apprise, Gemini, the IMAP server, [json.loads], [str()]) is a field
      of [Env], and may raise where the source guards it with [try/except].
      Only subclasses of [Exception] are modelled.
    - The file system is a finite map from paths to contents. Whether a file
      can be created is up to [Env] (the name of a stored attachment comes
      from the mail); reading or removing a file raises when there is no such
      file, and succeeds otherwise. *)

From Stdlib Require Import ZArith List String Ascii Bool Lia PrimFloat DecimalString.
Import ListNotations.
Local Open Scope string_scope.
Local Open Scope list_scope.
Local Open Scope Z_scope.

(** ** Strings *)

Definition bytes := list Byte.byte.

Definition ord (c : ascii) : Z := Z.of_nat (nat_of_ascii c).

(** [str.isspace] on one character. *)
Definition isspace (c : ascii) : bool :=
  ((9 <=? ord c) && (ord c <=? 13)) || ((28 <=? ord c) && (ord c <=? 32)).

Fixpoint lstrip (s : string) : string :=
  match s with
  | EmptyString => EmptyString
  | String c r => if isspace c then lstrip r else s
  end.

Fixpoint rstrip (s : string) : string :=
  match s with
  | EmptyString => EmptyString
  | String c r =>
      match rstrip r with
      | EmptyString => if isspace c then EmptyString else String c EmptyString
      | r' => String c r'
      end
  end.

Definition strip (s : string) : string := rstrip (lstrip s).

Definition startswith (s p : string) : bool := String.prefix p s.

Definition endswith (s p : string) : bool :=
  (Nat.leb (String.length p) (String.length s)) &&
  String.eqb (substring (String.length s - String.length p) (String.length p) s) p.

(** [s[n:]] and [s[:-n]] (for [n > 0]) and [s[:n]]. *)
Definition slice_from (n : nat) (s : string) : string :=
  substring n (String.length s - n) s.
Definition slice_to_minus (n : nat) (s : string) : string :=
  substring 0 (String.length s - n) s.
Definition slice_to (n : nat) (s : string) : string :=
  substring 0 n s.

Definition lower_char (c : ascii) : ascii :=
  if (65 <=? ord c) && (ord c <=? 90) then ascii_of_nat (nat_of_ascii c + 32) else c.

Fixpoint lower (s : string) : string :=
  match s with
  | EmptyString => EmptyString
  | String c r => String (lower_char c) (lower r)
  end.

(** The text before and after the last occurrence of [sep], if any. *)
Fixpoint rpartition (sep : ascii) (s : string) : option (string * string) :=
  match s with
  | EmptyString => None
  | String c r =>
      match rpartition sep r with
      | Some (a, b) => Some (String c a, b)
      | None => if Ascii.eqb c sep then Some (EmptyString, r) else None
      end
  end.

(** [s.rsplit(sep, 1)]. *)
Definition rsplit1 (sep : ascii) (s : string) : list string :=
  match rpartition sep s with
  | Some (a, b) => [a; b]
  | None => [s]
  end.

(** [os.path.basename] and [os.path.join] (POSIX). *)
Definition basename (p : string) : string :=
  match rpartition "/" p with
  | Some (_, b) => b
  | None => p
  end.

Definition path_join (a b : string) : string :=
  if startswith b "/" then b
  else if String.eqb a "" || endswith a "/" then (a ++ b)%string
  else (a ++ "/" ++ b)%string.

(** [str(n)] for an [int]. *)
Definition str_of_int (n : Z) : string := NilZero.string_of_int (Z.to_int n).

Definition in_strings (s : string) (l : list string) : bool :=
  existsb (String.eqb s) l.

(** ** Python values *)

Definition date := Z.

Record datetime := { dt_date : date; dt_timestamp : Z }.

(** The calendar of [datetime.py]. *)
Definition is_leap (year : Z) : bool :=
  (year mod 4 =? 0) && (negb (year mod 100 =? 0) || (year mod 400 =? 0)).

Definition days_before_year (year : Z) : Z :=
  let y := year - 1 in y * 365 + y / 4 - y / 100 + y / 400.

Definition DAYS_IN_MONTH : list Z := [31; 28; 31; 30; 31; 30; 31; 31; 30; 31; 30; 31].

Definition days_in_month (year month : Z) : Z :=
  if (month =? 2) && is_leap year then 29
  else nth (Z.to_nat (month - 1)) DAYS_IN_MONTH 0.

Definition days_before_month (year month : Z) : Z :=
  fold_right Z.add 0 (firstn (Z.to_nat (month - 1)) DAYS_IN_MONTH)
  + (if (2 <? month) && is_leap year then 1 else 0).

Definition ymd2ord (year month day : Z) : date :=
  days_before_year year + days_before_month year month + day.

(** The values [json.loads] can return. A [dict] is the list of its items,
    in insertion order, each key once. *)
#[warnings="-register-all"] Inductive pyval :=
| PNone
| PBool (b : bool)
| PInt (n : Z)
| PFloat (f : float)
| PStr (s : string)
| PList (l : list pyval)
| PDict (items : list (string * pyval)).

(** Truth value testing. *)
Definition truthy (v : pyval) : bool :=
  match v with
  | PNone => false
  | PBool b => b
  | PInt n => negb (n =? 0)
  | PFloat f => negb (PrimFloat.eqb f 0%float)
  | PStr s => negb (String.eqb s "")
  | PList l => match l with [] => false | _ => true end
  | PDict d => match d with [] => false | _ => true end
  end.

Definition truthy_str (s : option string) : bool :=
  match s with
  | Some s => negb (String.eqb s "")
  | None => false
  end.

Fixpoint items_get (k : string) (d : list (string * pyval)) : option pyval :=
  match d with
  | [] => None
  | (k', v) :: r => if String.eqb k k' then Some v else items_get k r
  end.

(** ** Exceptions *)

Inductive exn :=
| JSONDecodeError
| ValueError
| TypeError
| AttributeError
| IndexError
| KeyError
| OSError
| IntegrityError
| HTTPException (code : Z)
| Error (what : string).

(** [JSONDecodeError] is a subclass of [ValueError]. *)
Definition is_ValueError (e : exn) : bool :=
  match e with
  | ValueError | JSONDecodeError => true
  | _ => false
  end.

Definition is_JSONDecodeError (e : exn) : bool :=
  match e with
  | JSONDecodeError => true
  | _ => false
  end.

Inductive res (A : Type) :=
| Ret (a : A)
| Raise (e : exn).
Arguments Ret {A} a.
Arguments Raise {A} e.

(** [date(year, month, day)]: the fields are checked. *)
Definition make_date (year month day : Z) : res date :=
  if (1 <=? year) && (year <=? 9999) && (1 <=? month) && (month <=? 12)
     && (1 <=? day) && (day <=? days_in_month year month)
  then Ret (ymd2ord year month day)
  else Raise ValueError.

(** ** [datetime.strptime(s, '%Y-%m-%d').date()]

    [_strptime] turns the format into the regular expression
    [(?P<Y>\d\d\d\d)-(?P<m>1[0-2]|0[1-9]|[1-9])-(?P<d>3[0-1]|[1-2]\d|0[1-9]|[1-9]| [1-9])],
    matches it at the start of the string, and raises [ValueError] when there
    is no match, when text is left after the match, or when the fields are
    not a date. Each group below lists its matches as (value, rest of the
    string), in the order the alternatives are tried. *)

Definition digit (c : ascii) : option Z :=
  if (48 <=? ord c) && (ord c <=? 57) then Some (ord c - 48) else None.

Definition one_digit (ok : Z -> bool) (s : string) : list (Z * string) :=
  match s with
  | String a r =>
      match digit a with
      | Some x => if ok x then [(x, r)] else []
      | None => []
      end
  | EmptyString => []
  end.

Definition two_digits (ok : Z -> Z -> bool) (s : string) : list (Z * string) :=
  match s with
  | String a (String b r) =>
      match digit a, digit b with
      | Some x, Some y => if ok x y then [(10 * x + y, r)] else []
      | _, _ => []
      end
  | _ => []
  end.

Definition re_Y (s : string) : list (Z * string) :=
  match s with
  | String a (String b (String c (String d r))) =>
      match digit a, digit b, digit c, digit d with
      | Some x, Some y, Some z, Some t => [(1000 * x + 100 * y + 10 * z + t, r)]
      | _, _, _, _ => []
      end
  | _ => []
  end.

Definition re_m (s : string) : list (Z * string) :=
  two_digits (fun x y => (x =? 1) && (y <=? 2)) s
  ++ two_digits (fun x y => (x =? 0) && (1 <=? y)) s
  ++ one_digit (fun x => 1 <=? x) s.

Definition re_d (s : string) : list (Z * string) :=
  two_digits (fun x y => (x =? 3) && (y <=? 1)) s
  ++ two_digits (fun x _ => (1 <=? x) && (x <=? 2)) s
  ++ two_digits (fun x y => (x =? 0) && (1 <=? y)) s
  ++ one_digit (fun x => 1 <=? x) s
  ++ match s with
     | String " " r => one_digit (fun x => 1 <=? x) r
     | _ => []
     end.

Definition re_dash (s : string) : list string :=
  match s with
  | String "-" r => [r]
  | _ => []
  end.

(** All the ways the expression matches a prefix of [s], the preferred first:
    year, month, day and the text left over. *)
Definition re_Ymd (s : string) : list (Z * Z * Z * string) :=
  flat_map (fun '(y, r1) =>
    flat_map (fun r2 =>
      flat_map (fun '(m, r3) =>
        flat_map (fun r4 =>
          map (fun '(d, r5) => (y, m, d, r5)) (re_d r4))
          (re_dash r3))
        (re_m r2))
      (re_dash r1))
    (re_Y s).

Definition strptime_Ymd (s : string) : res date :=
  match re_Ymd s with
  | [] => Raise ValueError
  | (y, m, d, rest) :: _ =>
      if String.eqb rest "" then make_date y m d else Raise ValueError
  end.

(** The first argument of [strptime] must be a [str]. *)
Definition strptime_date (v : pyval) : res date :=
  match v with
  | PStr s => strptime_Ymd s
  | _ => Raise TypeError
  end.

(** [data.get(k)] and [data[k]]; only a [dict] has them. *)
Definition py_get (data : pyval) (k : string) : res pyval :=
  match data with
  | PDict items =>
      match items_get k items with
      | Some v => Ret v
      | None => Ret PNone
      end
  | _ => Raise AttributeError
  end.

Definition py_item (data : pyval) (k : string) : res pyval :=
  match data with
  | PDict items =>
      match items_get k items with
      | Some v => Ret v
      | None => Raise KeyError
      end
  | _ => Raise TypeError
  end.

(** A generator: the items it yields, until it is exhausted or raises. *)
Inductive gen (A : Type) :=
| Done
| Yield (a : A) (rest : gen A)
| Fail (e : exn).
Arguments Done {A}.
Arguments Yield {A} a rest.
Arguments Fail {A} e.

(** ** DB models *)

Module User.
Record t := mk {
  id : Z;
  email : string;
  password_hash : option string;
  name : option string;
  notify_url : option string;
  imap_server : option string;
  imap_user : option string;
  imap_password : option string
}.
End User.

Module Bill.
Record t := mk {
  id : Z;
  title : pyval;
  filename : string;
  amount : pyval;
  status : string;
  due_date : option date;
  created_at : datetime;
  paid_at : option datetime;
  user_id : Z
}.
End Bill.

Module BillFile.
Record t := mk {
  id : Z;
  bill_id : Z;
  filename : string
}.
End BillFile.

(** The keyword arguments of [Bill(...)] in [process_mailbox]: an object
    that is in the session and not yet a row. *)
Record NewBill := {
  nb_title : pyval;
  nb_filename : string;
  nb_due_date : option date;
  nb_amount : pyval;
  nb_user_id : Z
}.

(** The dictionary [analyze_bill_ai] returns: the key ['date'] may be missing,
    the keys ['title'] and ['amount'] are always there ([PNone] for [None]). *)
Record Result := {
  r_date : option date;
  r_title : pyval;
  r_amount : pyval
}.

(** ** Mail *)

Record Attachment := {
  att_filename : string;
  att_payload : bytes
}.

Record Message := {
  msg_subject : string;
  msg_attachments : list Attachment
}.

(** ** The outside world *)

(** One call of [ap_inst.notify] on an endpoint. *)
Record Attempt := {
  at_url : string;
  at_title : string;
  at_body : string
}.

(** The lines printed, one constructor per [print] of the source. *)
Inductive line :=
| NotificationError (url : string) (e : exn)
| AIKeyNotSet
| AIStarting (base : string)
| AIAnalyzing (mime : string)
| AIUnsupported (ext : string)
| AISending
| AIExtracted (r : Result)
| AIParseFailed (ans : string)
| AIAnalysisError (e : exn)
| DebugModels
| DebugModel (name : string)
| DebugError (e : exn)
| IMAPError (user : string) (e : exn).

Record Env := {
  GEMINI_API_KEY : option string;
  NOTIFY_URL : option string;
  UPLOAD_FOLDER : string;
  (** [datetime.now()], by the number of earlier readings *)
  clock : nat -> datetime;
  (** [str(x)] in an f-string *)
  str_of_value : pyval -> string;
  str_of_date : date -> string;
  (** [Apprise().add(url); notify(body, title)] *)
  apprise : string -> string -> string -> res bool;
  (** [genai.configure] and [genai.GenerativeModel] *)
  genai_configure : string -> res unit;
  (** [model.generate_content([prompt, {mime_type, data}]).text] *)
  generate_content : string -> bytes -> res string;
  (** [genai.list_models()]: names and supported generation methods *)
  list_models : gen (string * list string);
  json_loads : string -> res pyval;
  (** whether [open(path, 'wb')] raises *)
  open_wb : string -> res unit;
  (** [MailBox(server).login(user, password).fetch(A(seen=False))] *)
  imap_unseen : string -> string -> string -> res (gen Message);
  (** an error of the database engine on inserting this row, other than a
      violated constraint of the schema *)
  db_error : NewBill -> option exn
}.

Record World := {
  users : list User.t;
  bills : list Bill.t;
  bill_files : list BillFile.t;
  (** [db.session]: objects added and not yet committed *)
  pending : list NewBill;
  (** the file system: path and content *)
  files : list (string * bytes);
  outbox : list Attempt;
  stdout : list line;
  flashes : list (string * string);
  (** number of clock readings so far *)
  ticks : nat
}.

Definition set_users (f : list User.t -> list User.t) (w : World) : World :=
  {| users := f (users w); bills := bills w; bill_files := bill_files w;
     pending := pending w; files := files w; outbox := outbox w;
     stdout := stdout w; flashes := flashes w; ticks := ticks w |}.

Definition set_bills (f : list Bill.t -> list Bill.t) (w : World) : World :=
  {| users := users w; bills := f (bills w); bill_files := bill_files w;
     pending := pending w; files := files w; outbox := outbox w;
     stdout := stdout w; flashes := flashes w; ticks := ticks w |}.

Definition set_bill_files (f : list BillFile.t -> list BillFile.t) (w : World) : World :=
  {| users := users w; bills := bills w; bill_files := f (bill_files w);
     pending := pending w; files := files w; outbox := outbox w;
     stdout := stdout w; flashes := flashes w; ticks := ticks w |}.

Definition set_pending (f : list NewBill -> list NewBill) (w : World) : World :=
  {| users := users w; bills := bills w; bill_files := bill_files w;
     pending := f (pending w); files := files w; outbox := outbox w;
     stdout := stdout w; flashes := flashes w; ticks := ticks w |}.

Definition set_files (f : list (string * bytes) -> list (string * bytes)) (w : World) : World :=
  {| users := users w; bills := bills w; bill_files := bill_files w;
     pending := pending w; files := f (files w); outbox := outbox w;
     stdout := stdout w; flashes := flashes w; ticks := ticks w |}.

Definition set_outbox (f : list Attempt -> list Attempt) (w : World) : World :=
  {| users := users w; bills := bills w; bill_files := bill_files w;
     pending := pending w; files := files w; outbox := f (outbox w);
     stdout := stdout w; flashes := flashes w; ticks := ticks w |}.

Definition set_stdout (f : list line -> list line) (w : World) : World :=
  {| users := users w; bills := bills w; bill_files := bill_files w;
     pending := pending w; files := files w; outbox := outbox w;
     stdout := f (stdout w); flashes := flashes w; ticks := ticks w |}.

Definition set_flashes (f : list (string * string) -> list (string * string)) (w : World) : World :=
  {| users := users w; bills := bills w; bill_files := bill_files w;
     pending := pending w; files := files w; outbox := outbox w;
     stdout := stdout w; flashes := f (flashes w); ticks := ticks w |}.

Definition set_ticks (f : nat -> nat) (w : World) : World :=
  {| users := users w; bills := bills w; bill_files := bill_files w;
     pending := pending w; files := files w; outbox := outbox w;
     stdout := stdout w; flashes := flashes w; ticks := f (ticks w) |}.

(** ** The monad of effects *)

Definition M (A : Type) : Type := World -> res A * World.

Definition ret {A} (a : A) : M A := fun w => (Ret a, w).

Definition raise {A} (e : exn) : M A := fun w => (Raise e, w).

Definition bind {A B} (c : M A) (k : A -> M B) : M B :=
  fun w =>
    match c w with
    | (Ret a, w') => k a w'
    | (Raise e, w') => (Raise e, w')
    end.

Notation "x <- c ;; k" := (bind c (fun x => k))
  (at level 61, c at next level, right associativity).
Notation "c ;; k" := (bind c (fun _ => k))
  (at level 61, right associativity).

Definition lift {A} (r : res A) : M A :=
  match r with
  | Ret a => ret a
  | Raise e => raise e
  end.

(** [try: body / except Exception as e: handler e]. A handler for one class
    of exceptions re-raises the others. *)
Definition try_except {A} (body : M A) (handler : exn -> M A) : M A :=
  fun w =>
    match body w with
    | (Ret a, w') => (Ret a, w')
    | (Raise e, w') => handler e w'
    end.

Fixpoint for_each {A} (l : list A) (body : A -> M unit) : M unit :=
  match l with
  | [] => ret tt
  | a :: r => body a ;; for_each r body
  end.

(** A loop that updates a local variable. *)
Fixpoint for_fold {A S} (l : list A) (s : S) (body : A -> S -> M S) : M S :=
  match l with
  | [] => ret s
  | a :: r => s' <- body a s ;; for_fold r s' body
  end.

Fixpoint for_gen {A} (g : gen A) (body : A -> M unit) : M unit :=
  match g with
  | Done => ret tt
  | Yield a r => body a ;; for_gen r body
  | Fail e => raise e
  end.

Definition get {A} (f : World -> A) : M A := fun w => (Ret (f w), w).

Definition modify (f : World -> World) : M unit := fun w => (Ret tt, f w).

Definition print (l : line) : M unit :=
  modify (set_stdout (fun out => out ++ [l])).

Definition flash (message category : string) : M unit :=
  modify (set_flashes (fun fl => fl ++ [(message, category)])).

(** [datetime.now()] *)
Definition now (env : Env) : M datetime :=
  fun w => (Ret (clock env (ticks w)), set_ticks S w).

(** ** Helper *)

(** [ap_inst = apprise.Apprise(); ap_inst.add(url); ap_inst.notify(...)] *)
Definition apprise_notify (env : Env) (url title body : string) : M bool :=
  modify (set_outbox (fun o => o ++ [{| at_url := url; at_title := title; at_body := body |}])) ;;
  lift (apprise env url title body).

Definition send_notification (env : Env) (title body : string) (user : option User.t) : M unit :=
  let urls := [] in
  (* 1. User Config *)
  let urls :=
    match user with
    | Some u =>
        match User.notify_url u with
        | Some url => if truthy_str (Some url) then urls ++ [url] else urls
        | None => urls
        end
    | None => urls
    end in
  (* 2. Global Fallback *)
  let urls :=
    match NOTIFY_URL env with
    | Some g =>
        if (match urls with [] => true | _ => false end) && truthy_str (Some g)
        then urls ++ [g] else urls
    | None => urls
    end in
  match urls with
  | [] => ret tt
  | _ =>
      for_each urls (fun url =>
        try_except
          (apprise_notify env url title body ;; ret tt)
          (fun e => print (NotificationError url e)))
  end.

Fixpoint file_get (path : string) (fs : list (string * bytes)) : option bytes :=
  match fs with
  | [] => None
  | (p, content) :: r => if String.eqb path p then Some content else file_get path r
  end.

(** [with open(path, 'rb') as f: f.read()] *)
Definition read_file (path : string) : M bytes :=
  fun w =>
    match file_get path (files w) with
    | Some content => (Ret content, w)
    | None => (Raise OSError, w)
    end.

Definition mime_type_of (ext : string) : option string :=
  if in_strings ext ["jpg"; "jpeg"] then Some "image/jpeg"
  else if String.eqb ext "png" then Some "image/png"
  else if String.eqb ext "pdf" then Some "application/pdf"
  else None.

(** Markdown Code-Blöcke entfernen falls vorhanden *)
Definition unfence (ans : string) : string :=
  let ans := if startswith ans "```json" then slice_from 7 ans else ans in
  if endswith ans "```" then slice_to_minus 3 ans else ans.

(** The dictionary built from the decoded reply (the statements between
    [json.loads] and the [print] of the result). *)
Definition build_result (data : pyval) : res Result :=
  match py_get data "date" with
  | Raise e => Raise e
  | Ret d =>
      let date_field :=
        if truthy d then
          match py_item data "date" with
          | Raise e => Raise e
          | Ret v =>
              match strptime_date v with
              | Ret day => Ret (Some day)
              | Raise e => if is_ValueError e then Ret None else Raise e
              end
          end
        else Ret None in
      match date_field with
      | Raise e => Raise e
      | Ret date_opt =>
          match py_get data "title" with
          | Raise e => Raise e
          | Ret title =>
              match py_get data "amount" with
              | Raise e => Raise e
              | Ret amount =>
                  Ret {| r_date := date_opt; r_title := title; r_amount := amount |}
              end
          end
      end
  end.

(** The fixed prompt is part of [generate_content]. *)
Definition analyze_bill_ai (env : Env) (filepath : string) : M (option Result) :=
  if negb (truthy_str (GEMINI_API_KEY env)) then
    print AIKeyNotSet ;; ret None
  else
    print (AIStarting (basename filepath)) ;;
    try_except
      (lift (genai_configure env (match GEMINI_API_KEY env with Some k => k | None => "" end)) ;;
       ext <- lift (match nth_error (rsplit1 "." filepath) 1 with
                    | Some e => Ret (lower e)
                    | None => Raise IndexError
                    end) ;;
       match mime_type_of ext with
       | Some mime_type =>
           print (AIAnalyzing mime_type) ;;
           file_data <- read_file filepath ;;
           print AISending ;;
           text <- lift (generate_content env mime_type file_data) ;;
           let ans := unfence (strip text) in
           try_except
             (data <- lift (json_loads env (strip ans)) ;;
              result <- lift (build_result data) ;;
              print (AIExtracted result) ;;
              ret (Some result))
             (fun e =>
                if is_JSONDecodeError e then print (AIParseFailed ans) ;; ret None
                else raise e)
       | None =>
           print (AIUnsupported ext) ;; ret None
       end)
      (fun e =>
         print (AIAnalysisError e) ;;
         try_except
           (print DebugModels ;;
            for_gen (list_models env) (fun m =>
              if in_strings "generateContent" (snd m) then print (DebugModel (fst m))
              else ret tt))
           (fun e2 => print (DebugError e2)) ;;
         ret None).

(** ** Background Logic: mailbox ingestion *)

Fixpoint file_put (path : string) (content : bytes) (fs : list (string * bytes))
  : list (string * bytes) :=
  match fs with
  | [] => [(path, content)]
  | (p, c) :: r =>
      if String.eqb path p then (path, content) :: r
      else (p, c) :: file_put path content r
  end.

(** [with open(path, 'wb') as f: f.write(content)] *)
Definition write_file (env : Env) (path : string) (content : bytes) : M unit :=
  lift (open_wb env path) ;;
  modify (set_files (file_put path content)).

(** [db.session.add(obj)] *)
Definition session_add (nb : NewBill) : M unit :=
  modify (set_pending (fun p => p ++ [nb])).

Definition next_id (rows : list Bill.t) : Z :=
  1 + fold_right Z.max 0 (map Bill.id rows).

(** The INSERT of one pending object. The column defaults ([status],
    [created_at]) are computed first; [filename] is unique and [title] is not
    nullable. *)
Definition insert_bill (env : Env) (nb : NewBill) : M unit :=
  created <- now env ;;
  rows <- get bills ;;
  if existsb (fun b => String.eqb (Bill.filename b) (nb_filename nb)) rows then
    raise IntegrityError
  else
    match nb_title nb with
    | PNone => raise IntegrityError
    | _ =>
        match db_error env nb with
        | Some e => raise e
        | None =>
            modify (set_bills (fun rows =>
              rows ++ [ {| Bill.id := next_id rows;
                           Bill.title := nb_title nb;
                           Bill.filename := nb_filename nb;
                           Bill.amount := nb_amount nb;
                           Bill.status := "offen";
                           Bill.due_date := nb_due_date nb;
                           Bill.created_at := created;
                           Bill.paid_at := None;
                           Bill.user_id := nb_user_id nb |} ]))
        end
    end.

(** [db.session.commit()]: the pending objects are inserted in one
    transaction; when an insert raises, no row of the transaction stays, and
    the objects remain in the session until [rollback]. *)
Definition session_commit (env : Env) : M unit :=
  fun w =>
    match for_each (pending w) (insert_bill env) w with
    | (Ret _, w') => (Ret tt, set_pending (fun _ => []) w')
    | (Raise e, w') => (Raise e, set_ticks (fun _ => ticks w') w)
    end.

(** [db.session.rollback()] *)
Definition session_rollback : M unit :=
  modify (set_pending (fun _ => [])).

Definition is_pdf (att : Attachment) : bool :=
  negb (String.eqb (att_filename att) "") && endswith (lower (att_filename att)) ".pdf".

(** The body of the loop over [msg.attachments], up to [Bill(...)]. *)
Definition new_bill_for (env : Env) (owner : User.t) (msg : Message) (att : Attachment)
  : M NewBill :=
  ts <- now env ;;
  let secure_name := (str_of_int (dt_timestamp ts) ++ "_" ++ att_filename att)%string in
  let save_path := path_join (UPLOAD_FOLDER env) secure_name in
  write_file env save_path (att_payload att) ;;
  today <- now env ;;
  let default_due := dt_date today + 30 in
  (* AI Analyse versuchen *)
  ai_data <- analyze_bill_ai env save_path ;;
  let due_date := default_due in
  let title := PStr (slice_to 100 (msg_subject msg)) in
  let amount := PNone in
  let due_date :=
    match ai_data with
    | Some r => match r_date r with Some d => d | None => due_date end
    | None => due_date
    end in
  let title :=
    match ai_data with
    | Some r => if truthy (r_title r) then r_title r else title
    | None => title
    end in
  let amount :=
    match ai_data with
    | Some r => if truthy (r_amount r) then r_amount r else amount
    | None => amount
    end in
  ret {| nb_title := title;
         nb_filename := secure_name;
         nb_due_date := Some due_date;
         nb_amount := amount;
         nb_user_id := User.id owner |}.

(** [db.session.add(new_bill)] and the guarded commit; the result is the new
    value of [found_file]. *)
Definition add_and_commit (env : Env) (new_bill : NewBill) (found_file : bool) : M bool :=
  session_add new_bill ;;
  try_except
    (session_commit env ;; ret true)
    (fun _ => session_rollback ;; ret found_file).

Definition process_attachment (env : Env) (owner : User.t) (msg : Message)
  (att : Attachment) (found_file : bool) : M bool :=
  if is_pdf att then
    new_bill <- new_bill_for env owner msg att ;;
    add_and_commit env new_bill found_file
  else ret found_file.

Definition process_message (env : Env) (owner : User.t) (msg : Message) : M unit :=
  match msg_attachments msg with
  | [] => ret tt
  | attachments =>
      found_file <- for_fold attachments false (process_attachment env owner msg) ;;
      if found_file then
        send_notification env "Neue Rechnung" ("Importiert: " ++ msg_subject msg)%string
          (Some owner)
      else ret tt
  end.

(** Hilfsfunktion zum Abrufen eines Postfachs *)
Definition process_mailbox (env : Env) (server user password : string) (owner : User.t)
  : M unit :=
  try_except
    (mailbox <- lift (imap_unseen env server user password) ;;
     for_gen mailbox (process_message env owner))
    (fun e => print (IMAPError user e)).

(** ** Background Logic: the daily reminder *)

(** [bill.owner]: the relationship is loaded when it is first used. *)
Definition bill_owner (bill : Bill.t) : M (option User.t) :=
  get (fun w => find (fun u => User.id u =? Bill.user_id bill) (users w)).

Definition check_due_dates (env : Env) : M unit :=
  open_bills <- get (fun w => filter (fun b => String.eqb (Bill.status b) "offen") (bills w)) ;;
  dt <- now env ;;
  let today := dt_date dt in
  for_each open_bills (fun bill =>
    match Bill.due_date bill with
    | None => ret tt
    | Some due =>
        let days := due - today in
        if days <=? 0 then
          owner <- bill_owner bill ;;
          send_notification env "⚠️ ÜBERFÄLLIG"
            (str_of_value env (Bill.title bill) ++ " war fällig am "
               ++ str_of_date env due ++ "!")%string owner
        else if days =? 3 then
          owner <- bill_owner bill ;;
          send_notification env "Erinnerung"
            (str_of_value env (Bill.title bill) ++ " ist in 3 Tagen fällig.")%string owner
        else ret tt
    end).

(** ** The other helpers *)

Definition ALLOWED_EXTENSIONS : list string := ["pdf"; "png"; "jpg"; "jpeg"].

(** [c in s] for a character. *)
Fixpoint has_char (c : ascii) (s : string) : bool :=
  match s with
  | EmptyString => false
  | String a r => Ascii.eqb a c || has_char c r
  end.

(** [filename.rsplit('.', 1)[1].lower()] *)
Definition extension (filename : string) : res string :=
  match nth_error (rsplit1 "." filename) 1 with
  | Some e => Ret (lower e)
  | None => Raise IndexError
  end.

Definition allowed_file (filename : string) : res bool :=
  if has_char "." filename then
    match extension filename with
    | Ret ext => Ret (in_strings ext ALLOWED_EXTENSIONS)
    | Raise e => Raise e
    end
  else Ret false.

(** The property [file_type] of [Bill] and of [BillFile], on the filename. *)
Definition file_type (filename : string) : res string :=
  if negb (has_char "." filename) then Ret "pdf"
  else
    match extension filename with
    | Ret ext => Ret (if in_strings ext ["jpg"; "jpeg"; "png"] then "image" else "pdf")
    | Raise e => Raise e
    end.

(** ** Routes *)

Inductive response :=
| Redirect (endpoint : string)
| Render (template : string)
| SendFile (name : string) (content : bytes)
| Status (code : Z).


(** [request.form.get(key)] *)
Fixpoint form_get (key : string) (fields : list (string * string)) : option string :=
  match fields with
  | [] => None
  | (k, v) :: r => if String.eqb key k then Some v else form_get key r
  end.

(** [abort(code)] raises; Flask answers with that status. An exception that
    is not an HTTP one is answered with 500. *)
Definition abort {A} (code : Z) : M A := raise (HTTPException code).

Definition flask (view : M response) (w : World) : response * World :=
  match view w with
  | (Ret r, w') => (r, w')
  | (Raise (HTTPException code), w') => (Status code, w')
  | (Raise _, w') => (Status 500, w')
  end.

Definition first_or_404 {A} (row : option A) : M A :=
  match row with
  | Some a => ret a
  | None => abort 404
  end.







(** [os.remove(path)] *)
Definition file_remove (path : string) (fs : list (string * bytes)) : list (string * bytes) :=
  filter (fun entry => negb (String.eqb path (fst entry))) fs.

Definition remove_file (path : string) : M unit :=
  fun w =>
    match file_get path (files w) with
    | Some _ => (Ret tt, set_files (file_remove path) w)
    | None => (Raise OSError, w)
    end.

(** [set.add]; the set is kept as a list without repetition. The loop over
    it below gives the same files whatever the order. *)
Definition set_add (x : string) (l : list string) : list string :=
  if in_strings x l then l else l ++ [x].

(** [bill.files] *)
Definition files_of (bill : Bill.t) (w : World) : list BillFile.t :=
  filter (fun f => BillFile.bill_id f =? Bill.id bill) (bill_files w).

(** [db.session.delete(bill); db.session.commit()], with the cascade of the
    relationship [files]. *)
Definition delete_row (bill : Bill.t) (w : World) : World :=
  set_bill_files (filter (fun f => negb (BillFile.bill_id f =? Bill.id bill)))
    (set_bills (filter (fun b => negb (Bill.id b =? Bill.id bill))) w).

(** [/delete/<int:id>] *)
Definition delete_bill (env : Env) (id : Z) (current_user : Z) : M response :=
  rows <- get bills ;;
  bill <- first_or_404
            (find (fun b => (Bill.id b =? id) && (Bill.user_id b =? current_user)) rows) ;;
  (* Datei vom Dateisystem löschen *)
  attached <- get (files_of bill) ;;
  let files_to_delete :=
    fold_left (fun acc f => set_add (BillFile.filename f) acc) attached
              (set_add (Bill.filename bill) []) in
  for_each files_to_delete (fun fname =>
    let fp := path_join (UPLOAD_FOLDER env) fname in
    present <- get (fun w => match file_get fp (files w) with Some _ => true | None => false end) ;;
    if present then try_except (remove_file fp) (fun _ => ret tt) else ret tt) ;;
  modify (delete_row bill) ;;
  flash "Rechnung gelöscht." "success" ;;
  ret (Redirect "index").

(** [send_from_directory]: the file, or 404 when there is none. *)
Definition send_from_directory (directory filename : string) : M response :=
  content <- get (fun w => file_get (path_join directory filename) (files w)) ;;
  match content with
  | Some c => ret (SendFile filename c)
  | None => abort 404
  end.

(** [/file/<filename>] *)
Definition serve_file (env : Env) (filename : string) (current_user : Z) : M response :=
  bill <- get (fun w => find (fun b => String.eqb (Bill.filename b) filename) (bills w)) ;;
  bill <- match bill with
          | Some b => ret (Some b)
          | None =>
              (* Falls Datei nicht in der Haupt-Tabelle, in der Unter-Tabelle suchen *)
              bill_file <- get (fun w => find (fun f => String.eqb (BillFile.filename f) filename)
                                              (bill_files w)) ;;
              match bill_file with
              | Some f => get (fun w => find (fun b => Bill.id b =? BillFile.bill_id f) (bills w))
              | None => ret None
              end
          end ;;
  match bill with
  | None => abort 404
  | Some b =>
      if negb (Bill.user_id b =? current_user) then abort 403
      else send_from_directory (UPLOAD_FOLDER env) filename
  end.

(** ** The other routes and the mail job of all users *)

(** [sub in s] for a substring. *)
Fixpoint contains (sub s : string) : bool :=
  String.prefix sub s
  || match s with
     | EmptyString => false
     | String _ r => contains sub r
     end.

(** [db.session.commit()] after attributes of a loaded bill were assigned:
    the row with its primary key takes the state of the object. Until then
    the assignments are on the object only. *)
Definition commit_bill (bill : Bill.t) : M unit :=
  modify (set_bills (map (fun b => if Bill.id b =? Bill.id bill then bill else b))).

Definition with_status (v : string) (b : Bill.t) : Bill.t :=
  {| Bill.id := Bill.id b; Bill.title := Bill.title b; Bill.filename := Bill.filename b;
     Bill.amount := Bill.amount b; Bill.status := v; Bill.due_date := Bill.due_date b;
     Bill.created_at := Bill.created_at b; Bill.paid_at := Bill.paid_at b;
     Bill.user_id := Bill.user_id b |}.

Definition with_paid_at (v : option datetime) (b : Bill.t) : Bill.t :=
  {| Bill.id := Bill.id b; Bill.title := Bill.title b; Bill.filename := Bill.filename b;
     Bill.amount := Bill.amount b; Bill.status := Bill.status b;
     Bill.due_date := Bill.due_date b; Bill.created_at := Bill.created_at b;
     Bill.paid_at := v; Bill.user_id := Bill.user_id b |}.

Definition with_due_date (v : option date) (b : Bill.t) : Bill.t :=
  {| Bill.id := Bill.id b; Bill.title := Bill.title b; Bill.filename := Bill.filename b;
     Bill.amount := Bill.amount b; Bill.status := Bill.status b; Bill.due_date := v;
     Bill.created_at := Bill.created_at b; Bill.paid_at := Bill.paid_at b;
     Bill.user_id := Bill.user_id b |}.

Definition with_title (v : pyval) (b : Bill.t) : Bill.t :=
  {| Bill.id := Bill.id b; Bill.title := v; Bill.filename := Bill.filename b;
     Bill.amount := Bill.amount b; Bill.status := Bill.status b;
     Bill.due_date := Bill.due_date b; Bill.created_at := Bill.created_at b;
     Bill.paid_at := Bill.paid_at b; Bill.user_id := Bill.user_id b |}.

Definition with_amount (v : pyval) (b : Bill.t) : Bill.t :=
  {| Bill.id := Bill.id b; Bill.title := Bill.title b; Bill.filename := Bill.filename b;
     Bill.amount := v; Bill.status := Bill.status b; Bill.due_date := Bill.due_date b;
     Bill.created_at := Bill.created_at b; Bill.paid_at := Bill.paid_at b;
     Bill.user_id := Bill.user_id b |}.

(** [Bill.query.filter_by(id=id, user_id=current_user.id).first_or_404()] *)
Definition own_bill_or_404 (id current_user : Z) : M Bill.t :=
  rows <- get bills ;;
  first_or_404 (find (fun b => (Bill.id b =? id) && (Bill.user_id b =? current_user)) rows).

(** [/pay/<int:id>]; a redirect to the referrer carries its URL. *)
Definition pay (env : Env) (id : Z) (referrer : option string) (current_user : Z)
  : M response :=
  bill <- own_bill_or_404 id current_user ;;
  let bill := with_status "bezahlt" bill in
  paid <- now env ;;
  let bill := with_paid_at (Some paid) bill in
  commit_bill bill ;;
  match referrer with
  | Some r =>
      if truthy_str (Some r) && contains "bill" r then ret (Redirect r)
      else ret (Redirect "index")
  | None => ret (Redirect "index")
  end.

(** [/update_date/<int:id>]; the date is parsed without a guard. *)
Definition update_date (id : Z) (fields : list (string * string)) (current_user : Z)
  : M response :=
  bill <- own_bill_or_404 id current_user ;;
  match form_get "due_date" fields with
  | Some date_str =>
      if truthy_str (Some date_str) then
        day <- lift (strptime_Ymd date_str) ;;
        commit_bill (with_due_date (Some day) bill)
      else ret tt
  | None => ret tt
  end ;;
  ret (Redirect "index").

(** [/bill/<int:id>] *)
Definition bill_details (id current_user : Z) : M response :=
  bill <- own_bill_or_404 id current_user ;;
  ret (Render "bill_details.html").

(** [/edit/<int:id>]; [float_of_str] is Python's [float()] on a string. The
    redirect goes to the details of the same id. *)
Definition edit_bill (float_of_str : string -> res float) (id : Z)
  (fields : list (string * string)) (current_user : Z) : M response :=
  bill <- own_bill_or_404 id current_user ;;
  let bill :=
    match form_get "title" fields with
    | Some title => if truthy_str (Some title) then with_title (PStr title) bill else bill
    | None => bill
    end in
  bill <- match form_get "due_date" fields with
          | Some date_str =>
              if truthy_str (Some date_str) then
                try_except
                  (day <- lift (strptime_Ymd date_str) ;;
                   ret (with_due_date (Some day) bill))
                  (fun e => if is_ValueError e then ret bill else raise e)
              else ret bill
          | None => ret bill
          end ;;
  bill <- match form_get "amount" fields with
          | Some amount_str =>
              if truthy_str (Some amount_str) then
                try_except
                  (amount <- lift (float_of_str amount_str) ;;
                   ret (with_amount (PFloat amount) bill))
                  (fun e => if is_ValueError e then ret bill else raise e)
              else ret bill
          | None => ret bill
          end ;;
  commit_bill bill ;;
  flash "Änderungen gespeichert." "success" ;;
  ret (Redirect "bill_details").

(** [/test_notification]; [login_required] sends a request without a user
    to the login page. *)
Definition test_notification (env : Env) (current_user : Z) : M response :=
  user <- get (fun w => find (fun u => User.id u =? current_user) (users w)) ;;
  match user with
  | None => ret (Redirect "login")
  | Some u =>
      (if truthy_str (User.notify_url u) then
         send_notification env "Test-Benachrichtigung"
           "Wenn du das siehst, funktioniert die Benachrichtigung von BillTracker! 🎉"
           (Some u) ;;
         flash "Test-Benachrichtigung wurde an deine URL gesendet." "success"
       else
         flash "Keine Benachrichtigungs-URL in den Einstellungen hinterlegt." "error") ;;
      ret (Redirect "settings")
  end.

(** The mailbox of the process, from the environment variables. *)
Record MailConfig := {
  IMAP_SERVER : option string;
  IMAP_USER : option string;
  IMAP_PASSWORD : option string;
  IMAP_OWNER_EMAIL : option string
}.

Definition text_of (v : option string) : string :=
  match v with
  | Some s => s
  | None => EmptyString
  end.

(** Holt Mails für alle konfigurierten User + Global *)
Definition fetch_emails (env : Env) (cfg : MailConfig) : M unit :=
  (* 1. Globale Konfiguration *)
  (if truthy_str (IMAP_SERVER cfg) && truthy_str (IMAP_PASSWORD cfg)
      && truthy_str (IMAP_USER cfg) && truthy_str (IMAP_OWNER_EMAIL cfg)
   then
     owner <- get (fun w => find (fun u => String.eqb (User.email u)
                                            (text_of (IMAP_OWNER_EMAIL cfg)))
                                 (users w)) ;;
     match owner with
     | Some o =>
         process_mailbox env (text_of (IMAP_SERVER cfg)) (text_of (IMAP_USER cfg))
           (text_of (IMAP_PASSWORD cfg)) o
     | None => ret tt
     end
   else ret tt) ;;
  (* 2. Benutzer-spezifische Konfiguration *)
  configured <- get (fun w => filter (fun u => match User.imap_server u with
                                               | Some _ => true
                                               | None => false
                                               end) (users w)) ;;
  for_each configured (fun u =>
    if truthy_str (User.imap_server u) && truthy_str (User.imap_user u)
       && truthy_str (User.imap_password u)
    then process_mailbox env (text_of (User.imap_server u)) (text_of (User.imap_user u))
           (text_of (User.imap_password u)) u
    else ret tt).

(** * Specifications

    The definitions of this part follow the words of the specification; the
    theorems below relate them to the code above. *)

(** Endpoint resolution order of the Notification Dispatcher. *)
Definition personal_endpoint (user : option User.t) : option string :=
  match user with
  | Some u =>
      match User.notify_url u with
      | Some url => if String.eqb url "" then None else Some url
      | None => None
      end
  | None => None
  end.

Definition fallback_endpoint (env : Env) : option string :=
  match NOTIFY_URL env with
  | Some g => if String.eqb g "" then None else Some g
  | None => None
  end.

Definition resolved_endpoints (env : Env) (user : option User.t) : list string :=
  match personal_endpoint user with
  | Some url => [url]
  | None =>
      match fallback_endpoint env with
      | Some g => [g]
      | None => []
      end
  end.

(** What one call of the dispatcher attempts, and the failures it prints. *)
Definition deliveries (env : Env) (title body : string) (user : option User.t) : list Attempt :=
  map (fun url => {| at_url := url; at_title := title; at_body := body |})
      (resolved_endpoints env user).

Definition delivery_errors (env : Env) (title body : string) (user : option User.t) : list line :=
  flat_map (fun url =>
              match apprise env url title body with
              | Raise e => [NotificationError url e]
              | Ret _ => []
              end)
           (resolved_endpoints env user).

(** The Due-Date Reminder Job, bill by bill. *)
Inductive reminder_kind := Overdue | Reminder.

Definition due_kind (today : date) (bill : Bill.t) : option reminder_kind :=
  if String.eqb (Bill.status bill) "offen" then
    match Bill.due_date bill with
    | Some due =>
        if due - today <=? 0 then Some Overdue
        else if due - today =? 3 then Some Reminder
        else None
    | None => None
    end
  else None.

Definition reminder_title (k : reminder_kind) : string :=
  match k with
  | Overdue => "⚠️ ÜBERFÄLLIG"
  | Reminder => "Erinnerung"
  end.

Definition reminder_body (env : Env) (k : reminder_kind) (bill : Bill.t) : string :=
  match k, Bill.due_date bill with
  | Overdue, Some due =>
      (str_of_value env (Bill.title bill) ++ " war fällig am " ++ str_of_date env due ++ "!")%string
  | Overdue, None => ""
  | Reminder, _ =>
      (str_of_value env (Bill.title bill) ++ " ist in 3 Tagen fällig.")%string
  end.

Definition owner_in (w : World) (bill : Bill.t) : option User.t :=
  find (fun u => User.id u =? Bill.user_id bill) (users w).

(** The effect of one dispatcher call on the world. *)
Definition dispatched (env : Env) (title body : string) (user : option User.t) (w : World) : World :=
  set_stdout (fun out => out ++ delivery_errors env title body user)
    (set_outbox (fun o => o ++ deliveries env title body user) w).

(** What the reminder job does for one bill: nothing, or one call of the
    dispatcher for the bill's owner. *)
Definition remind (env : Env) (today : date) (w : World) (bill : Bill.t) : World :=
  match due_kind today bill with
  | Some k => dispatched env (reminder_title k) (reminder_body env k bill) (owner_in w bill) w
  | None => w
  end.

Definition reminder_deliveries (env : Env) (today : date) (w : World) (bill : Bill.t) : list Attempt :=
  match due_kind today bill with
  | Some k => deliveries env (reminder_title k) (reminder_body env k bill) (owner_in w bill)
  | None => []
  end.

(** A computation that only prints, and one that moreover never raises. *)
Definition printed (out : list line) (w : World) : World :=
  set_stdout (fun o => o ++ out) w.

Definition quiet {A} (c : M A) : Prop :=
  forall w, exists r out, c w = (r, printed out w).

Definition quiet_total {A} (c : M A) : Prop :=
  forall w, exists a out, c w = (Ret a, printed out w).



(** *** Mailbox ingestion *)

(** The name under which an attachment is stored, and the world once it is
    stored and the default due date is computed. *)
Definition stored_name (env : Env) (att : Attachment) (w : World) : string :=
  (str_of_int (dt_timestamp (clock env (ticks w))) ++ "_" ++ att_filename att)%string.

Definition stored_path (env : Env) (att : Attachment) (w : World) : string :=
  path_join (UPLOAD_FOLDER env) (stored_name env att w).

Definition stored_world (env : Env) (att : Attachment) (w : World) : World :=
  set_ticks S (set_files (file_put (stored_path env att w) (att_payload att)) (set_ticks S w)).

(** Final title, due date and amount of an imported bill: an extracted
    field overrides the default when it is there and is not falsy. *)
Definition resolve_title (ai : option Result) (subject : string) : pyval :=
  match ai with
  | Some r => if truthy (r_title r) then r_title r else PStr (slice_to 100 subject)
  | None => PStr (slice_to 100 subject)
  end.

Definition resolve_due (ai : option Result) (ingested : date) : date :=
  match ai with
  | Some r => match r_date r with Some d => d | None => ingested + 30 end
  | None => ingested + 30
  end.

Definition resolve_amount (ai : option Result) : pyval :=
  match ai with
  | Some r => if truthy (r_amount r) then r_amount r else PNone
  | None => PNone
  end.

Definition resolved_bill (env : Env) (owner : User.t) (msg : Message) (att : Attachment)
  (w : World) (ai : option Result) : NewBill :=
  {| nb_title := resolve_title ai (msg_subject msg);
     nb_filename := stored_name env att w;
     nb_due_date := Some (resolve_due ai (dt_date (clock env (S (ticks w)))));
     nb_amount := resolve_amount ai;
     nb_user_id := User.id owner |}.

(** The error, if any, that inserting the row raises. *)
Definition insert_error (env : Env) (rows : list Bill.t) (nb : NewBill) : option exn :=
  if existsb (fun b => String.eqb (Bill.filename b) (nb_filename nb)) rows
  then Some IntegrityError
  else match nb_title nb with
       | PNone => Some IntegrityError
       | _ => db_error env nb
       end.

Definition accepted (env : Env) (rows : list Bill.t) (nb : NewBill) : bool :=
  match insert_error env rows nb with
  | Some _ => false
  | None => true
  end.

Definition row_of (rows : list Bill.t) (created : datetime) (nb : NewBill) : Bill.t :=
  {| Bill.id := next_id rows;
     Bill.title := nb_title nb;
     Bill.filename := nb_filename nb;
     Bill.amount := nb_amount nb;
     Bill.status := "offen";
     Bill.due_date := nb_due_date nb;
     Bill.created_at := created;
     Bill.paid_at := None;
     Bill.user_id := nb_user_id nb |}.

Definition committed (env : Env) (nb : NewBill) (w : World) : World :=
  set_bills (fun rows => rows ++ [row_of rows (clock env (ticks w)) nb]) (set_ticks S w).

(** *** Routes *)






(** The stored path of a name of the upload store. *)
Definition upload_path (env : Env) (name : string) : string :=
  path_join (UPLOAD_FOLDER env) name.

(** *** The bills of a user and of the others *)

(** The world once the row of a bill has taken the state [bill']. *)
Definition replaced (bill' : Bill.t) (w : World) : World :=
  set_bills (map (fun b => if Bill.id b =? Bill.id bill' then bill' else b)) w.

(** The bills that do not belong to a user, in table order. *)
Definition others (user : Z) (w : World) : list Bill.t :=
  filter (fun b => negb (Bill.user_id b =? user)) (bills w).

(** The bill a request of a user for an id is about. *)
Definition own_bill (id user : Z) (w : World) : option Bill.t :=
  find (fun b => (Bill.id b =? id) && (Bill.user_id b =? user)) (bills w).

(** Where [pay] redirects to. *)
Definition after_pay (referrer : option string) : string :=
  match referrer with
  | Some r => if negb (String.eqb r "") && contains "bill" r then r else "index"
  | None => "index"
  end.

(** A form field that is missing or empty. *)
Definition empty_field (v : option string) : bool := negb (truthy_str v).

(** The object [edit_bill] commits: each field of the form that is not
    empty is assigned, a date or an amount that does not parse is passed
    over. *)
Definition edited_title (fields : list (string * string)) (bill : Bill.t) : Bill.t :=
  match form_get "title" fields with
  | Some t => if String.eqb t "" then bill else with_title (PStr t) bill
  | None => bill
  end.

Definition edited_date (fields : list (string * string)) (bill : Bill.t) : Bill.t :=
  match form_get "due_date" fields with
  | Some s =>
      if String.eqb s "" then bill
      else match strptime_Ymd s with
           | Ret day => with_due_date (Some day) bill
           | Raise _ => bill
           end
  | None => bill
  end.

Definition edited_amount (float_of_str : string -> res float)
  (fields : list (string * string)) (bill : Bill.t) : res Bill.t :=
  match form_get "amount" fields with
  | Some s =>
      if String.eqb s "" then Ret bill
      else match float_of_str s with
           | Ret a => Ret (with_amount (PFloat a) bill)
           | Raise e => if is_ValueError e then Ret bill else Raise e
           end
  | None => Ret bill
  end.

(** Two rows of a table with a primary key have different ids. *)
Definition ids_unique (w : World) : Prop := NoDup (map Bill.id (bills w)).

(** *** What the mail job adds *)

(** A bill as the mail job creates it for a user. *)
Definition imported_for (owner : User.t) (b : Bill.t) : Prop :=
  Bill.user_id b = User.id owner /\
  Bill.status b = "offen" /\
  Bill.due_date b <> None /\
  Bill.paid_at b = None /\
  Bill.title b <> PNone /\
  file_type (Bill.filename b) = Ret "pdf".

(** The stored filenames of the bills are pairwise different. *)
Definition filenames_unique (w : World) : Prop :=
  NoDup (map Bill.filename (bills w)).

(** One or more steps of the mail job for [owner]: the session is empty
    again, the users are the same, bills were added at the end of the table
    and each is an import for [owner], and unique filenames stay unique. *)
Definition imports_for (owner : User.t) (w w' : World) : Prop :=
  pending w' = [] /\
  users w' = users w /\
  (exists added, bills w' = bills w ++ added /\ Forall (imported_for owner) added) /\
  (filenames_unique w -> filenames_unique w').

(** The same for the mailboxes of several users of the table. *)
Definition imports (w w' : World) : Prop :=
  pending w' = [] /\
  users w' = users w /\
  (exists added,
     bills w' = bills w ++ added /\
     Forall (fun b => exists u, In u (users w) /\ imported_for u b) added) /\
  (filenames_unique w -> filenames_unique w').

(** Whether a user has a complete mailbox of their own. *)
Definition has_mailbox (u : User.t) : bool :=
  truthy_str (User.imap_server u) && truthy_str (User.imap_user u)
  && truthy_str (User.imap_password u).

(** Whether the mailbox of the process is complete. *)
Definition global_mailbox (cfg : MailConfig) : bool :=
  truthy_str (IMAP_SERVER cfg) && truthy_str (IMAP_PASSWORD cfg)
  && truthy_str (IMAP_USER cfg) && truthy_str (IMAP_OWNER_EMAIL cfg).

(** *** A small installation, for examples *)

Definition quoted (s : string) : string :=
  String (ascii_of_nat 34) (s ++ String (ascii_of_nat 34) "")%string.

Definition newline : string := String (ascii_of_nat 10) "".

(** A reply of the service with a date that is not zero-padded and an amount
    that is not a number, in a code fence. *)
Definition example_json : string :=
  ("{" ++ quoted "title" ++ ": " ++ quoted "ACME" ++ ", "
       ++ quoted "date" ++ ": " ++ quoted "2024-3-4" ++ ", "
       ++ quoted "amount" ++ ": " ++ quoted "12,50 EUR" ++ "}")%string.

Definition example_reply : string :=
  ("```json" ++ newline ++ example_json ++ newline ++ "```" ++ newline)%string.

Definition example_payload : pyval :=
  PDict [("title", PStr "ACME"); ("date", PStr "2024-3-4"); ("amount", PStr "12,50 EUR")].

Definition installation (reply json : string) (payload : pyval) (mailbox : gen Message)
  : Env :=
  {| GEMINI_API_KEY := Some "secret";
     NOTIFY_URL := Some "mailto://admin";
     UPLOAD_FOLDER := "/app/data/uploads";
     clock := fun n => {| dt_date := 738959; dt_timestamp := 1710410000 + Z.of_nat n |};
     str_of_value := fun v => match v with PStr s => s | _ => "" end;
     str_of_date := fun _ => "2024-03-14";
     apprise := fun _ _ _ => Ret true;
     genai_configure := fun _ => Ret tt;
     generate_content := fun _ _ => Ret reply;
     list_models := Done;
     json_loads := fun s => if String.eqb s json then Ret payload else Raise JSONDecodeError;
     open_wb := fun _ => Ret tt;
     imap_unseen := fun _ _ _ => Ret mailbox;
     db_error := fun _ => None |}.

Definition example_env : Env :=
  installation example_reply example_json example_payload Done.

(** A reply with an empty title, no date and the amount 0.0, and a mailbox
    with one unseen message that carries one PDF. *)
Definition zero_json : string :=
  ("{" ++ quoted "title" ++ ": " ++ quoted "" ++ ", "
       ++ quoted "date" ++ ": null, " ++ quoted "amount" ++ ": 0.0}")%string.

Definition zero_payload : pyval :=
  PDict [("title", PStr ""); ("date", PNone); ("amount", PFloat 0)].

Definition invoice_attachment : Attachment :=
  {| att_filename := "bill.PDF"; att_payload := [] |}.

Definition invoice_message : Message :=
  {| msg_subject := "Rechnung Maerz"; msg_attachments := [invoice_attachment] |}.

Definition zero_env : Env :=
  installation zero_json zero_json zero_payload (Yield invoice_message Done).

Definition example_owner : User.t :=
  User.mk 1 "anna@example.org" None None (Some "mailto://anna") None None None.

Definition empty_world : World :=
  {| users := []; bills := []; bill_files := []; pending := []; files := [];
     outbox := []; stdout := []; flashes := []; ticks := 0 |}.


(** A world in which the name the next attachment gets is already taken. *)
Definition taken_world : World :=
  set_bills (fun _ => [ {| Bill.id := 1; Bill.title := PStr "Strom";
                           Bill.filename := "1710410000_bill.PDF"; Bill.amount := PNone;
                           Bill.status := "offen"; Bill.due_date := None;
                           Bill.created_at := {| dt_date := 738959; dt_timestamp := 1710410000 |};
                           Bill.paid_at := None; Bill.user_id := 1 |} ])
            empty_world.

(** The same installation when the file system refuses to create a file. *)
Definition read_only (env : Env) : Env :=
  {| GEMINI_API_KEY := GEMINI_API_KEY env; NOTIFY_URL := NOTIFY_URL env;
     UPLOAD_FOLDER := UPLOAD_FOLDER env; clock := clock env;
     str_of_value := str_of_value env; str_of_date := str_of_date env;
     apprise := apprise env; genai_configure := genai_configure env;
     generate_content := generate_content env; list_models := list_models env;
     json_loads := json_loads env;
     open_wb := fun path => if endswith path "_second.pdf" then Raise OSError else Ret tt;
     imap_unseen := imap_unseen env; db_error := db_error env |}.

Definition example_bill (id : Z) (status : string) (due : option date) : Bill.t :=
  {| Bill.id := id; Bill.title := PStr "Strom"; Bill.filename := "f.pdf";
     Bill.amount := PNone; Bill.status := status; Bill.due_date := due;
     Bill.created_at := {| dt_date := 738900; dt_timestamp := 1705000000 |};
     Bill.paid_at := None; Bill.user_id := 1 |}.

(** Four bills on 2024-03-14 (ordinal 738959): due today, in three days, in
    five days, and a paid one that was due long ago. *)
Definition reminder_world : World :=
  set_users (fun _ => [example_owner])
    (set_bills (fun _ => [example_bill 1 "offen" (Some 738959);
                          example_bill 2 "offen" (Some 738962);
                          example_bill 3 "offen" (Some 738964);
                          example_bill 4 "bezahlt" (Some 738000);
                          example_bill 5 "offen" None])
       empty_world).

(** A bill with two more files, all three in the upload store, next to a
    file of another bill. *)
Definition archive_world : World :=
  set_files (fun _ => [("/app/data/uploads/manual_1_0.pdf", []);
                       ("/app/data/uploads/manual_1_1.png", []);
                       ("/app/data/uploads/manual_1_2.png", []);
                       ("/app/data/uploads/other.pdf", [])])
    (set_bill_files (fun _ => [BillFile.mk 1 7 "manual_1_0.pdf";
                               BillFile.mk 2 7 "manual_1_1.png";
                               BillFile.mk 3 7 "manual_1_2.png"])
       (set_bills (fun _ => [ {| Bill.id := 7; Bill.title := PStr "Strom";
                                 Bill.filename := "manual_1_0.pdf"; Bill.amount := PNone;
                                 Bill.status := "offen"; Bill.due_date := None;
                                 Bill.created_at := {| dt_date := 738900;
                                                       dt_timestamp := 1705000000 |};
                                 Bill.paid_at := None; Bill.user_id := 1 |};
                              {| Bill.id := 8; Bill.title := PStr "Gas";
                                 Bill.filename := "other.pdf"; Bill.amount := PNone;
                                 Bill.status := "offen"; Bill.due_date := None;
                                 Bill.created_at := {| dt_date := 738900;
                                                       dt_timestamp := 1705000000 |};
                                 Bill.paid_at := None; Bill.user_id := 2 |} ])
          empty_world)).

(** * Properties *)

(** ** Running the monad *)

Ltac run := unfold bind, ret, raise, lift, get, modify, print, flash, try_except in *; simpl in *.

Lemma for_each_notify env title body (urls : list string) (w : World) :
  for_each urls
    (fun url =>
       try_except (apprise_notify env url title body ;; ret tt)
                  (fun e => print (NotificationError url e))) w
  = (Ret tt,
     set_stdout
       (fun out => out ++ flat_map (fun url =>
                             match apprise env url title body with
                             | Raise e => [NotificationError url e]
                             | Ret _ => []
                             end) urls)
       (set_outbox
          (fun o => o ++ map (fun url => {| at_url := url; at_title := title; at_body := body |}) urls)
          w)).
Proof.
  revert w; induction urls as [|url urls IH]; intros w.
  - destruct w; unfold set_stdout, set_outbox; simpl; unfold ret.
    now rewrite !app_nil_r.
  - cbn [for_each]. unfold bind at 1. unfold try_except, apprise_notify.
    run. destruct (apprise env url title body) as [ok|e]; simpl;
      rewrite IH; destruct w; unfold set_stdout, set_outbox; simpl;
      now rewrite <- !app_assoc.
Qed.

Lemma send_notification_run env title body user (w : World) :
  send_notification env title body user w = (Ret tt, dispatched env title body user w).
Proof.
  unfold send_notification, dispatched, deliveries, delivery_errors, resolved_endpoints,
    personal_endpoint, fallback_endpoint, truthy_str.
  destruct user as [u|]; [destruct (User.notify_url u) as [url|]; [destruct (String.eqb url "")|]|];
    destruct (NOTIFY_URL env) as [g|]; try destruct (String.eqb g "");
    cbn [app negb andb map flat_map]; try (rewrite for_each_notify; reflexivity).
  all: destruct w; unfold ret, set_stdout, set_outbox; simpl; now rewrite !app_nil_r.
Qed.

(** ** The Notification Dispatcher *)

Lemma personal_endpoint_none user :
  personal_endpoint user = None <->
  user = None \/ exists u, user = Some u /\
                           (User.notify_url u = None \/ User.notify_url u = Some "").
Proof.
  unfold personal_endpoint. destruct user as [u|]; [|split; auto].
  destruct (User.notify_url u) as [url|] eqn:E.
  - destruct (String.eqb_spec url "") as [->|Hne].
    + split; [|reflexivity]. intros _. right. exists u. auto.
    + split; [discriminate|]. intros [H|(u' & H & [H'|H'])]; try discriminate;
        injection H as <-; congruence.
  - split; [|reflexivity]. intros _. right. exists u. auto.
Qed.

(** C7. A call of the dispatcher never raises. It attempts the notification
    on the personal endpoint of the target user only, when the user is given
    and that endpoint is set; otherwise on the process-wide fallback only,
    when one is configured; with neither it leaves the world as it is. A
    delivery that raises is printed and goes no further. *)
Theorem C7_send_notification_endpoints : forall env title body user w,
  exists w',
    send_notification env title body user w = (Ret tt, w') /\
    (forall u url, user = Some u -> User.notify_url u = Some url -> url <> "" ->
       outbox w' = outbox w ++ [{| at_url := url; at_title := title; at_body := body |}]) /\
    (forall g, personal_endpoint user = None -> NOTIFY_URL env = Some g -> g <> "" ->
       outbox w' = outbox w ++ [{| at_url := g; at_title := title; at_body := body |}]) /\
    (personal_endpoint user = None -> fallback_endpoint env = None -> w' = w) /\
    stdout w' = stdout w ++ delivery_errors env title body user /\
    (users w', bills w', bill_files w', pending w', files w', flashes w', ticks w')
    = (users w, bills w, bill_files w, pending w, files w, flashes w, ticks w).
Proof.
  intros env title body user w.
  exists (dispatched env title body user w).
  split; [apply send_notification_run|].
  unfold dispatched, deliveries, delivery_errors, resolved_endpoints.
  repeat split.
  - intros u url -> Hu Hne. unfold personal_endpoint. rewrite Hu.
    destruct (String.eqb_spec url ""); [contradiction|]. reflexivity.
  - intros g Hp Hg Hne. rewrite Hp. unfold fallback_endpoint. rewrite Hg.
    destruct (String.eqb_spec g ""); [contradiction|]. reflexivity.
  - intros Hp Hf. rewrite Hp, Hf. destruct w; unfold set_stdout, set_outbox; simpl.
    now rewrite !app_nil_r.
Qed.

(** ** The Due-Date Reminder Job *)

Lemma reminder_loop env today (bs : list Bill.t) : forall w,
  for_each (filter (fun b => String.eqb (Bill.status b) "offen") bs)
    (fun bill =>
       match Bill.due_date bill with
       | None => ret tt
       | Some due =>
           let days := due - today in
           if days <=? 0 then
             owner <- bill_owner bill ;;
             send_notification env "⚠️ ÜBERFÄLLIG"
               (str_of_value env (Bill.title bill) ++ " war fällig am "
                  ++ str_of_date env due ++ "!")%string owner
           else if days =? 3 then
             owner <- bill_owner bill ;;
             send_notification env "Erinnerung"
               (str_of_value env (Bill.title bill) ++ " ist in 3 Tagen fällig.")%string owner
           else ret tt
       end) w
  = (Ret tt, fold_left (remind env today) bs w).
Proof.
  induction bs as [|b bs IH]; intros w; [reflexivity|].
  cbn [filter fold_left]. unfold remind at 2, due_kind.
  destruct (String.eqb (Bill.status b) "offen"); [|apply IH].
  cbn [for_each]. unfold bind at 1.
  destruct (Bill.due_date b) as [due|] eqn:Hdue.
  - cbv zeta. destruct (due - today <=? 0).
    + unfold bind, bill_owner, get. rewrite send_notification_run.
      unfold reminder_body. rewrite Hdue. apply IH.
    + destruct (due - today =? 3).
      * unfold bind, bill_owner, get. rewrite send_notification_run. apply IH.
      * unfold ret. apply IH.
  - unfold ret. apply IH.
Qed.

Lemma dispatched_frame env title body user w :
  users (dispatched env title body user w) = users w /\
  outbox (dispatched env title body user w) = outbox w ++ deliveries env title body user.
Proof. split; reflexivity. Qed.

Lemma remind_outbox env today (bs : list Bill.t) : forall w,
  users (fold_left (remind env today) bs w) = users w /\
  outbox (fold_left (remind env today) bs w)
  = outbox w ++ flat_map (reminder_deliveries env today w) bs.
Proof.
  induction bs as [|b bs IH]; intros w; cbn [fold_left flat_map].
  - split; [reflexivity|now rewrite app_nil_r].
  - destruct (IH (remind env today w b)) as [Hu Ho]. rewrite Hu, Ho.
    assert (Hw : users (remind env today w b) = users w /\
                 outbox (remind env today w b) = outbox w ++ reminder_deliveries env today w b).
    { unfold remind, reminder_deliveries. destruct (due_kind today b).
      - apply dispatched_frame.
      - split; [reflexivity|now rewrite app_nil_r]. }
    destruct Hw as [Hu' Ho']. split; [exact Hu'|].
    rewrite Ho', <- app_assoc. f_equal. f_equal.
    apply flat_map_ext. intros a. unfold reminder_deliveries, owner_in. now rewrite Hu'.
Qed.

Lemma due_kind_open today bill due :
  Bill.status bill = "offen" -> Bill.due_date bill = Some due ->
  due_kind today bill
  = if due - today <=? 0 then Some Overdue
    else if due - today =? 3 then Some Reminder else None.
Proof. intros Hs Hd. unfold due_kind. now rewrite Hs, Hd. Qed.

(** C1. One run of the reminder job is one call of the dispatcher per
    qualifying bill, in table order: for an open bill with a due date, an
    overdue notification to the owner exactly when the days remaining are at
    most 0, a reminder exactly when they are 3, and nothing otherwise; a bill
    that is not open or has no due date gets nothing. *)
Theorem C1_check_due_dates_dispatch : forall env w,
  let today := dt_date (clock env (ticks w)) in
  check_due_dates env w = (Ret tt, fold_left (remind env today) (bills w) (set_ticks S w)) /\
  outbox (fold_left (remind env today) (bills w) (set_ticks S w))
  = outbox w ++ flat_map (reminder_deliveries env today w) (bills w) /\
  (forall bill due, Bill.status bill = "offen" -> Bill.due_date bill = Some due ->
     (due_kind today bill = Some Overdue <-> due - today <= 0) /\
     (due_kind today bill = Some Reminder <-> due - today = 3) /\
     (due_kind today bill = None <-> 0 < due - today /\ due - today <> 3)) /\
  (forall bill, Bill.status bill <> "offen" \/ Bill.due_date bill = None ->
     due_kind today bill = None).
Proof.
  intros env w today. split; [|split; [|split]].
  - unfold check_due_dates, bind, get, now. fold today. apply reminder_loop.
  - destruct (remind_outbox env today (bills w) (set_ticks S w)) as [_ Ho]. exact Ho.
  - intros bill due Hs Hd. rewrite (due_kind_open today bill due Hs Hd).
    destruct (Z.leb_spec (due - today) 0); [|destruct (Z.eqb_spec (due - today) 3)];
      repeat split; intros; try discriminate; try lia; auto.
  - intros bill [Hs|Hd]; unfold due_kind.
    + destruct (String.eqb_spec (Bill.status bill) "offen"); [contradiction|reflexivity].
    + rewrite Hd. now destruct (String.eqb (Bill.status bill) "offen").
Qed.

(** ** The Extraction Client *)

Lemma printed_nil w : printed [] w = w.
Proof. destruct w; unfold printed, set_stdout; simpl. now rewrite app_nil_r. Qed.

Lemma printed_app out1 out2 w : printed out2 (printed out1 w) = printed (out1 ++ out2) w.
Proof. destruct w; unfold printed, set_stdout; simpl. now rewrite app_assoc. Qed.

Lemma quiet_of_total {A} (c : M A) : quiet_total c -> quiet c.
Proof. intros H w. destruct (H w) as (a & out & E). eauto. Qed.

Lemma total_ret {A} (a : A) : quiet_total (ret a).
Proof. intros w. exists a, []. now rewrite printed_nil. Qed.

Lemma total_print l : quiet_total (print l).
Proof. intros w. exists tt, [l]. reflexivity. Qed.

Lemma quiet_raise {A} e : quiet (@raise A e).
Proof. intros w. exists (Raise e), []. now rewrite printed_nil. Qed.

Lemma quiet_lift {A} (r : res A) : quiet (lift r).
Proof. destruct r; [apply quiet_of_total, total_ret|apply quiet_raise]. Qed.

Lemma quiet_read_file path : quiet (read_file path).
Proof.
  intros w. unfold read_file. destruct (file_get path (files w)) as [c|].
  - exists (Ret c), []. now rewrite printed_nil.
  - exists (Raise OSError), []. now rewrite printed_nil.
Qed.

Lemma quiet_bind {A B} (c : M A) (k : A -> M B) :
  quiet c -> (forall a, quiet (k a)) -> quiet (bind c k).
Proof.
  intros Hc Hk w. unfold bind. destruct (Hc w) as (r & out & E). rewrite E.
  destruct r as [a|e].
  - destruct (Hk a (printed out w)) as (r' & out' & E'). rewrite E', printed_app. eauto.
  - eauto.
Qed.

Lemma total_bind {A B} (c : M A) (k : A -> M B) :
  quiet_total c -> (forall a, quiet_total (k a)) -> quiet_total (bind c k).
Proof.
  intros Hc Hk w. unfold bind. destruct (Hc w) as (a & out & E). rewrite E.
  destruct (Hk a (printed out w)) as (b & out' & E'). rewrite E', printed_app. eauto.
Qed.

Lemma quiet_try {A} (c : M A) (h : exn -> M A) :
  quiet c -> (forall e, quiet (h e)) -> quiet (try_except c h).
Proof.
  intros Hc Hh w. unfold try_except. destruct (Hc w) as (r & out & E). rewrite E.
  destruct r as [a|e].
  - eauto.
  - destruct (Hh e (printed out w)) as (r' & out' & E'). rewrite E', printed_app. eauto.
Qed.

Lemma total_try {A} (c : M A) (h : exn -> M A) :
  quiet c -> (forall e, quiet_total (h e)) -> quiet_total (try_except c h).
Proof.
  intros Hc Hh w. unfold try_except. destruct (Hc w) as (r & out & E). rewrite E.
  destruct r as [a|e].
  - eauto.
  - destruct (Hh e (printed out w)) as (r' & out' & E'). rewrite E', printed_app. eauto.
Qed.

Lemma quiet_for_gen {A} (g : gen A) (body : A -> M unit) :
  (forall a, quiet (body a)) -> quiet (for_gen g body).
Proof.
  intros Hb. induction g as [|a g IH|e]; cbn [for_gen].
  - apply quiet_of_total, total_ret.
  - apply quiet_bind; auto.
  - apply quiet_raise.
Qed.

(** The handler of the outer [try] prints, lists the models and gives
    [None], whatever the listing does. *)
Lemma debug_handler_total env (e : exn) :
  quiet_total
    (print (AIAnalysisError e) ;;
     try_except
       (print DebugModels ;;
        for_gen (list_models env) (fun m =>
          if in_strings "generateContent" (snd m) then print (DebugModel (fst m))
          else ret tt))
       (fun e2 => print (DebugError e2)) ;;
     @ret (option Result) None).
Proof.
  apply total_bind; [apply total_print|intros _].
  apply total_bind; [|intros _; apply total_ret].
  apply total_try; [|intros e2; apply total_print].
  apply quiet_bind; [apply quiet_of_total, total_print|intros _].
  apply quiet_for_gen. intros m.
  destruct (in_strings "generateContent" (snd m)); apply quiet_of_total;
    [apply total_print|apply total_ret].
Qed.

Lemma analyze_bill_ai_total env filepath : quiet_total (analyze_bill_ai env filepath).
Proof.
  unfold analyze_bill_ai.
  destruct (negb (truthy_str (GEMINI_API_KEY env))).
  - apply total_bind; [apply total_print|intros _; apply total_ret].
  - apply total_bind; [apply total_print|intros _].
    apply total_try; [|intros e; apply debug_handler_total].
    apply quiet_bind; [apply quiet_lift|intros _].
    apply quiet_bind; [apply quiet_lift|intros ext].
    destruct (mime_type_of ext) as [mime|].
    + apply quiet_bind; [apply quiet_of_total, total_print|intros _].
      apply quiet_bind; [apply quiet_read_file|intros data].
      apply quiet_bind; [apply quiet_of_total, total_print|intros _].
      apply quiet_bind; [apply quiet_lift|intros text].
      apply quiet_try.
      * apply quiet_bind; [apply quiet_lift|intros d].
        apply quiet_bind; [apply quiet_lift|intros r].
        apply quiet_bind; [apply quiet_of_total, total_print|intros _; apply quiet_of_total, total_ret].
      * intros e. destruct (is_JSONDecodeError e); [|apply quiet_raise].
        apply quiet_bind; [apply quiet_of_total, total_print|intros _; apply quiet_of_total, total_ret].
    + apply quiet_bind; [apply quiet_of_total, total_print|intros _; apply quiet_of_total, total_ret].
Qed.








Lemma strptime_Ymd_raises s e : strptime_Ymd s = Raise e -> e = ValueError.
Proof.
  unfold strptime_Ymd, make_date.
  destruct (re_Ymd s) as [|[[[y m] d] rest] l]; [intros H; now inversion H|].
  destruct (String.eqb rest ""); [|intros H; now inversion H].
  match goal with |- context [if ?c then _ else _] => destruct c end;
    intros H; now inversion H.
Qed.


Lemma mime_type_of_some ext mime :
  mime_type_of ext = Some mime -> in_strings ext ["jpg"; "jpeg"; "png"; "pdf"] = true.
Proof.
  unfold mime_type_of, in_strings. cbn [existsb].
  destruct (String.eqb ext "jpg"), (String.eqb ext "jpeg"), (String.eqb ext "png"),
    (String.eqb ext "pdf"); cbn; intros H; congruence.
Qed.



Example strptime_slashes : strptime_Ymd "03/14/2024" = Raise ValueError.
Proof. reflexivity. Qed.

Example strptime_padded : strptime_Ymd "2024-03-14" = Ret (ymd2ord 2024 3 14).
Proof. reflexivity. Qed.

Example strptime_unpadded : strptime_Ymd "2024-3-4" = Ret (ymd2ord 2024 3 4).
Proof. reflexivity. Qed.

Example strptime_no_such_day : strptime_Ymd "2024-02-30" = Raise ValueError.
Proof. reflexivity. Qed.




(** ** The Mailbox Ingestion Job *)

Lemma insert_bill_run env nb w :
  insert_bill env nb w
  = match insert_error env (bills w) nb with
    | Some e => (Raise e, set_ticks S w)
    | None => (Ret tt, committed env nb w)
    end.
Proof.
  unfold insert_bill, insert_error, committed, row_of, bind, now, get, modify, raise.
  cbn [bills set_ticks].
  destruct (existsb (fun b => String.eqb (Bill.filename b) (nb_filename nb)) (bills w));
    [reflexivity|].
  destruct (nb_title nb); try reflexivity; destruct (db_error env nb); reflexivity.
Qed.

Lemma add_and_commit_run env nb found w :
  pending w = [] ->
  add_and_commit env nb found w
  = if accepted env (bills w) nb then (Ret true, committed env nb w)
    else (Ret found, set_ticks S w).
Proof.
  intros P. unfold add_and_commit, session_add, session_commit, session_rollback,
    try_except, accepted.
  unfold bind at 1. unfold modify at 1. unfold bind at 1.
  cbn [pending set_pending]. rewrite P. cbn [app for_each].
  unfold bind at 1. rewrite insert_bill_run. cbn [bills set_pending].
  destruct (insert_error env (bills w) nb) as [e|].
  - unfold bind, modify, ret. destruct w; cbn in *. now subst.
  - unfold ret, committed. destruct w; cbn in *. now subst.
Qed.

Lemma new_bill_for_run env owner msg att w :
  match open_wb env (stored_path env att w) with
  | Raise e => new_bill_for env owner msg att w = (Raise e, set_ticks S w)
  | Ret _ =>
      exists ai out,
        analyze_bill_ai env (stored_path env att w) (stored_world env att w)
        = (Ret ai, printed out (stored_world env att w)) /\
        new_bill_for env owner msg att w
        = (Ret (resolved_bill env owner msg att w ai), printed out (stored_world env att w))
  end.
Proof.
  unfold new_bill_for, write_file, now, bind, modify, stored_path, stored_name.
  cbn [ticks set_ticks].
  destruct (open_wb env _) as [u|e] eqn:O; cbn [lift]; [|reflexivity].
  unfold ret at 1.
  destruct (analyze_bill_ai_total env
              (path_join (UPLOAD_FOLDER env)
                 (str_of_int (dt_timestamp (clock env (ticks w))) ++ "_" ++ att_filename att)%string)
              (stored_world env att w)) as (ai & out & E).
  exists ai, out. split; [exact E|].
  unfold stored_world, stored_path, stored_name in E |- *. cbn [ticks set_ticks set_files] in E |- *.
  rewrite E. unfold ret, resolved_bill, resolve_title, resolve_due, resolve_amount, stored_name.
  destruct ai as [r|]; reflexivity.
Qed.

Lemma process_attachment_run env owner msg att found w :
  pending w = [] ->
  if is_pdf att then
    match open_wb env (stored_path env att w) with
    | Raise e => process_attachment env owner msg att found w = (Raise e, set_ticks S w)
    | Ret _ =>
        exists ai out,
          analyze_bill_ai env (stored_path env att w) (stored_world env att w)
          = (Ret ai, printed out (stored_world env att w)) /\
          process_attachment env owner msg att found w
          = if accepted env (bills w) (resolved_bill env owner msg att w ai)
            then (Ret true,
                  committed env (resolved_bill env owner msg att w ai)
                    (printed out (stored_world env att w)))
            else (Ret found, set_ticks S (printed out (stored_world env att w)))
    end
  else process_attachment env owner msg att found w = (Ret found, w).
Proof.
  intros P. unfold process_attachment. destruct (is_pdf att); [|reflexivity].
  pose proof (new_bill_for_run env owner msg att w) as N.
  destruct (open_wb env (stored_path env att w)) as [u|e].
  - destruct N as (ai & out & E & N). exists ai, out. split; [exact E|].
    unfold bind. rewrite N. now rewrite add_and_commit_run.
  - unfold bind. now rewrite N.
Qed.

Lemma process_attachment_effect env owner msg att found w :
  pending w = [] ->
  exists r w1,
    process_attachment env owner msg att found w = (r, w1) /\
    pending w1 = [] /\ outbox w1 = outbox w /\ users w1 = users w /\
    ((bills w1 = bills w /\ (r = Ret found \/ exists e, r = Raise e))
     \/ (exists b, bills w1 = bills w ++ [b] /\ r = Ret true)).
Proof.
  intros P. pose proof (process_attachment_run env owner msg att found w P) as R.
  destruct (is_pdf att).
  - destruct (open_wb env (stored_path env att w)) as [u|e].
    + destruct R as (ai & out & _ & R). rewrite R.
      destruct (accepted env (bills w) (resolved_bill env owner msg att w ai)).
      * do 2 eexists. split; [reflexivity|]. repeat split; auto.
        right. eexists. split; reflexivity.
      * do 2 eexists. split; [reflexivity|]. repeat split; auto.
    + rewrite R. do 2 eexists. split; [reflexivity|]. repeat split; eauto.
  - rewrite R. do 2 eexists. split; [reflexivity|]. repeat split; auto.
Qed.

Lemma attachments_effect env owner msg (atts : list Attachment) : forall found w,
  pending w = [] ->
  exists r w1 added,
    for_fold atts found (process_attachment env owner msg) w = (r, w1) /\
    pending w1 = [] /\ outbox w1 = outbox w /\ users w1 = users w /\
    bills w1 = bills w ++ added /\
    (forall f, r = Ret f -> f = found || match added with [] => false | _ => true end).
Proof.
  induction atts as [|att atts IH]; intros found w P; cbn [for_fold].
  - exists (Ret found), w, []. rewrite app_nil_r, orb_false_r.
    repeat split; auto. intros f H; now inversion H.
  - destruct (process_attachment_effect env owner msg att found w P)
      as (r & w1 & E & P1 & O1 & U1 & B1).
    unfold bind. rewrite E. destruct r as [f1|e].
    + destruct (IH f1 w1 P1) as (r2 & w2 & added & E2 & P2 & O2 & U2 & B2 & F2).
      rewrite E2. destruct B1 as [[B1 [Hr|[e He]]]|(b & B1 & Hr)]; try discriminate;
        inversion Hr; subst f1.
      * exists r2, w2, added. repeat split; try congruence. exact F2.
      * exists r2, w2, (b :: added). repeat split; try congruence.
        -- rewrite B2, B1, <- app_assoc. reflexivity.
        -- intros f Hf. rewrite (F2 f Hf). now rewrite orb_true_r.
    + destruct B1 as [[B1 _]|(b & _ & Hr)]; [|discriminate].
      exists (Raise e), w1, []. rewrite app_nil_r. repeat split; auto.
      intros f H; discriminate.
Qed.


Lemma process_message_run env owner msg w :
  pending w = [] ->
  exists r w1 added,
    for_fold (msg_attachments msg) false (process_attachment env owner msg) w = (r, w1) /\
    pending w1 = [] /\ users w1 = users w /\
    bills w1 = bills w ++ added /\ outbox w1 = outbox w /\
    process_message env owner msg w
    = match r with
      | Ret _ =>
          (Ret tt,
           match added with
           | [] => w1
           | _ => dispatched env "Neue Rechnung" ("Importiert: " ++ msg_subject msg)%string
                    (Some owner) w1
           end)
      | Raise e => (Raise e, w1)
      end.
Proof.
  intros P.
  destruct (attachments_effect env owner msg (msg_attachments msg) false w P)
    as (r & w1 & added & E & P1 & O1 & U1 & B1 & F1).
  exists r, w1, added. repeat split; auto.
  unfold process_message. destruct (msg_attachments msg) as [|att atts] eqn:A.
  - cbn [for_fold] in E. unfold ret in E. injection E as <- <-.
    rewrite <- (app_nil_r (bills w)) in B1 at 1. apply app_inv_head in B1. now subst.
  - unfold bind. rewrite E. destruct r as [f|e]; [|reflexivity].
    rewrite (F1 f eq_refl). cbn [orb]. destruct added; [reflexivity|].
    apply send_notification_run.
Qed.


Lemma process_message_effect env owner msg w :
  pending w = [] ->
  exists r w', process_message env owner msg w = (r, w') /\
               pending w' = [] /\ exists added, bills w' = bills w ++ added.
Proof.
  intros P.
  destruct (process_message_run env owner msg w P) as (r & w1 & added & _ & P1 & _ & B & _ & R).
  rewrite R. destruct r as [f|e].
  - do 2 eexists. split; [reflexivity|]. destruct added; eauto.
  - do 2 eexists. split; [reflexivity|]. eauto.
Qed.

Lemma messages_effect env owner (mailbox : gen Message) : forall w,
  pending w = [] ->
  exists r w', for_gen mailbox (process_message env owner) w = (r, w') /\
               pending w' = [] /\ exists added, bills w' = bills w ++ added.
Proof.
  induction mailbox as [|msg rest IH|e]; intros w P; cbn [for_gen].
  - exists (Ret tt), w. repeat split; auto. exists []. now rewrite app_nil_r.
  - destruct (process_message_effect env owner msg w P) as (r & w1 & E & P1 & added & B1).
    unfold bind. rewrite E. destruct r as [u|e].
    + destruct (IH w1 P1) as (r2 & w2 & E2 & P2 & added2 & B2).
      exists r2, w2. repeat split; auto. exists (added ++ added2).
      now rewrite B2, B1, app_assoc.
    + exists (Raise e), w1. eauto.
  - exists (Raise e), w. repeat split; auto. exists []. now rewrite app_nil_r.
Qed.

Lemma process_mailbox_effect env server user password owner w :
  pending w = [] ->
  exists w', process_mailbox env server user password owner w = (Ret tt, w') /\
             pending w' = [] /\ exists added, bills w' = bills w ++ added.
Proof.
  intros P. unfold process_mailbox, try_except, bind.
  destruct (imap_unseen env server user password) as [mailbox|e]; cbn [lift].
  - unfold ret at 1.
    destruct (messages_effect env owner mailbox w P) as (r & w1 & E & P1 & added & B1).
    rewrite E. destruct r as [[]|e].
    + exists w1. eauto.
    + eexists. split; [reflexivity|]. eauto.
  - unfold raise. eexists. split; [reflexivity|]. split; [exact P|].
    exists []. cbn. now rewrite app_nil_r.
Qed.

Lemma new_bill_for_frame env owner msg att w nb w1 :
  new_bill_for env owner msg att w = (Ret nb, w1) ->
  bills w1 = bills w /\
  exists ai out,
    analyze_bill_ai env (stored_path env att w) (stored_world env att w)
    = (Ret ai, printed out (stored_world env att w)) /\
    nb = resolved_bill env owner msg att w ai.
Proof.
  intros H. pose proof (new_bill_for_run env owner msg att w) as N.
  destruct (open_wb env (stored_path env att w)) as [u|e]; [|congruence].
  destruct N as (ai & out & E & N). rewrite N in H. injection H as <- <-.
  split; [reflexivity|]. eauto.
Qed.




(** C5. When the commit of a new bill raises, that record alone is rolled
    back: the attachment is done without an exception, the table of bills is
    as it was before the attachment and the session is empty, and the loop
    goes on with the remaining attachments. A run of the job always
    returns, with an empty session and with every bill that was in the table
    still there, in its place. *)
Theorem C5_failed_commit_is_skipped : forall env owner msg att rest found w nb w1 e w2,
  is_pdf att = true ->
  new_bill_for env owner msg att w = (Ret nb, w1) ->
  session_commit env (set_pending (fun p => p ++ [nb]) w1) = (Raise e, w2) ->
  (exists w',
     process_attachment env owner msg att found w = (Ret found, w') /\
     bills w' = bills w /\ pending w' = [] /\
     for_fold (att :: rest) found (process_attachment env owner msg) w
     = for_fold rest found (process_attachment env owner msg) w') /\
  (forall server user password w0,
     pending w0 = [] ->
     exists w',
       process_mailbox env server user password owner w0 = (Ret tt, w') /\
       pending w' = [] /\ exists added, bills w' = bills w0 ++ added).
Proof.
  intros env owner msg att rest found w nb w1 e w2 Pdf N C. split.
  - assert (R : process_attachment env owner msg att found w
                = (Ret found, set_pending (fun _ => []) w2)).
    { unfold process_attachment. rewrite Pdf. unfold bind at 1. rewrite N.
      unfold add_and_commit, session_add, try_except. unfold bind at 1. unfold modify at 1.
      unfold bind at 1. rewrite C. reflexivity. }
    exists (set_pending (fun _ => []) w2). split; [exact R|].
    repeat split.
    + destruct (new_bill_for_frame env owner msg att w nb w1 N) as [B _].
      rewrite <- B. unfold session_commit in C.
      destruct (for_each _ _ _) as [[u|e'] w3]; [discriminate|].
      now injection C as _ <-.
    + cbn [for_fold]. unfold bind at 1. now rewrite R.
  - intros server user password w0 P0. now apply process_mailbox_effect.
Qed.

Lemma C5_failed_commit_witness :
  (exists w',
     process_attachment example_env example_owner invoice_message invoice_attachment false
       taken_world = (Ret false, w') /\
     bills w' = bills taken_world /\ pending w' = [] /\
     for_fold [invoice_attachment; invoice_attachment] false
       (process_attachment example_env example_owner invoice_message) taken_world
     = for_fold [invoice_attachment] false
         (process_attachment example_env example_owner invoice_message) w') /\
  (forall server user password w0,
     pending w0 = [] ->
     exists w',
       process_mailbox example_env server user password example_owner w0 = (Ret tt, w') /\
       pending w' = [] /\ exists added, bills w' = bills w0 ++ added).
Proof.
  eapply (C5_failed_commit_is_skipped example_env example_owner invoice_message
            invoice_attachment [invoice_attachment] false taken_world).
  - reflexivity.
  - vm_compute. reflexivity.
  - vm_compute. reflexivity.
Defined.


(** ** The routes *)





(** *** Serving a file *)





(** *** Deleting a bill *)


Lemma file_remove_absent q fs : file_get q fs = None -> file_remove q fs = fs.
Proof.
  unfold file_remove. induction fs as [|[k c] fs IH]; cbn [filter file_get fst]; [reflexivity|].
  destruct (String.eqb_spec q k); [discriminate|]. cbn [negb]. intros H. now rewrite IH.
Qed.

Lemma remove_loop env (names : list string) : forall w,
  for_each names (fun fname =>
    let fp := path_join (UPLOAD_FOLDER env) fname in
    present <- get (fun w => match file_get fp (files w) with Some _ => true | None => false end) ;;
    if present then try_except (remove_file fp) (fun _ => ret tt) else ret tt) w
  = (Ret tt,
     set_files (fun fs => fold_left (fun fs n => file_remove (upload_path env n) fs) names fs) w).
Proof.
  induction names as [|n names IH]; intros w; cbn [for_each fold_left].
  - destruct w; reflexivity.
  - unfold bind at 1. cbv zeta. unfold bind at 1, get at 1.
    assert (Step : (if match file_get (path_join (UPLOAD_FOLDER env) n) (files w) with
                       | Some _ => true
                       | None => false
                       end
                    then try_except (remove_file (path_join (UPLOAD_FOLDER env) n))
                           (fun _ => ret tt)
                    else ret tt) w
                   = (Ret tt, set_files (file_remove (upload_path env n)) w)).
    { unfold try_except, remove_file, upload_path.
      destruct (file_get (path_join (UPLOAD_FOLDER env) n) (files w)) as [c|] eqn:G.
      - rewrite G. reflexivity.
      - unfold ret. destruct w as [us bs bfs pd fs ob so fl tk].
        unfold set_files. cbn [users bills bill_files pending files outbox stdout flashes ticks] in *.
        now rewrite (file_remove_absent _ _ G). }
    rewrite Step, IH. destruct w; reflexivity.
Qed.





Lemma delete_bill_run env id current_user w :
  flask (delete_bill env id current_user) w
  = match find (fun b => (Bill.id b =? id) && (Bill.user_id b =? current_user)) (bills w) with
    | Some bill =>
        (Redirect "index",
         set_flashes (fun fl => fl ++ [("Rechnung gelöscht.", "success")])
           (delete_row bill
              (set_files
                 (fun fs =>
                    fold_left (fun fs n => file_remove (upload_path env n) fs)
                      (fold_left (fun acc f => set_add (BillFile.filename f) acc)
                         (files_of bill w) (set_add (Bill.filename bill) []))
                      fs)
                 w)))
    | None => (Status 404, w)
    end.
Proof.
  unfold flask, delete_bill. unfold bind at 1. unfold get at 1. unfold bind at 1.
  destruct (find (fun b => (Bill.id b =? id) && (Bill.user_id b =? current_user)) (bills w))
    as [bill|]; cbn [first_or_404]; [|reflexivity].
  unfold ret at 1. unfold bind at 1. unfold get at 1. cbv zeta.
  unfold bind at 1. rewrite remove_loop.
  unfold bind, modify, flash, ret. reflexivity.
Qed.


(** ** Worked examples *)

Example reminder_today_and_in_three_days :
  outbox (snd (check_due_dates example_env reminder_world))
  = [ {| at_url := "mailto://anna"; at_title := "⚠️ ÜBERFÄLLIG";
         at_body := "Strom war fällig am 2024-03-14!" |};
      {| at_url := "mailto://anna"; at_title := "Erinnerung";
         at_body := "Strom ist in 3 Tagen fällig." |} ].
Proof. vm_compute. reflexivity. Qed.

Example one_pdf_one_bill_one_notification :
  let w := snd (process_mailbox zero_env "imap.example.org" "anna" "pw" example_owner
                  empty_world) in
  List.length (bills w) = 1%nat /\
  map fst (files w) = ["/app/data/uploads/1710410000_bill.PDF"] /\
  outbox w = [ {| at_url := "mailto://anna"; at_title := "Neue Rechnung";
                  at_body := "Importiert: Rechnung Maerz" |} ].
Proof. vm_compute. repeat split. Qed.

Example a_docx_alone_is_ignored :
  process_message example_env example_owner
    {| msg_subject := "Angebot";
       msg_attachments := [ {| att_filename := "offer.docx"; att_payload := [] |} ] |}
    empty_world
  = (Ret tt, empty_world).
Proof. vm_compute. reflexivity. Qed.

(** The second attachment cannot be stored: the scan ends there, the bill of
    the first attachment stays and nobody is notified. *)
Example storing_fails_after_a_commit :
  let w := snd (process_mailbox
                  (read_only (installation zero_json zero_json zero_payload
                     (Yield {| msg_subject := "Zwei Rechnungen";
                               msg_attachments :=
                                 [ {| att_filename := "first.pdf"; att_payload := [] |};
                                   {| att_filename := "second.pdf"; att_payload := [] |} ] |}
                            Done)))
                  "imap.example.org" "anna" "pw" example_owner empty_world) in
  List.length (bills w) = 1%nat /\ outbox w = [] /\ stdout w <> [].
Proof. vm_compute. repeat split. discriminate. Qed.

Example delete_removes_three_files :
  let '(r, w) := flask (delete_bill example_env 7 1) archive_world in
  r = Redirect "index" /\
  map Bill.id (bills w) = [8] /\ bill_files w = [] /\
  map fst (files w) = ["/app/data/uploads/other.pdf"] /\
  flask (delete_bill example_env 7 1) w = (Status 404, w).
Proof. vm_compute. repeat split. Qed.

Example serve_file_answers :
  fst (flask (serve_file example_env "manual_1_1.png" 1) archive_world)
  = SendFile "manual_1_1.png" [] /\
  fst (flask (serve_file example_env "manual_1_1.png" 2) archive_world) = Status 403 /\
  fst (flask (serve_file example_env "nothing.pdf" 1) archive_world) = Status 404.
Proof. vm_compute. repeat split. Qed.

(** * More of the program *)

(** ** Strings *)

Lemma append_assoc (a b c : string) : ((a ++ b) ++ c = a ++ (b ++ c))%string.
Proof. induction a as [|x a IH]; cbn; [reflexivity|now rewrite IH]. Qed.

Lemma rpartition_none c s : rpartition c s = None <-> has_char c s = false.
Proof.
  induction s as [|a s IH]; cbn [rpartition has_char]; [tauto|].
  destruct (rpartition c s) as [[x y]|].
  - split; [discriminate|]. intros H. apply orb_false_elim in H. destruct H as [_ H].
    apply IH in H. discriminate.
  - destruct (Ascii.eqb a c); cbn [orb]; [split; discriminate|]. tauto.
Qed.

Lemma rpartition_last c stem ext :
  has_char c ext = false -> rpartition c (stem ++ String c ext) = Some (stem, ext).
Proof.
  intros H. induction stem as [|a stem IH]; cbn [append rpartition].
  - apply rpartition_none in H. rewrite H. now rewrite Ascii.eqb_refl.
  - now rewrite IH.
Qed.

Lemma rpartition_split c s a b :
  rpartition c s = Some (a, b) -> s = (a ++ String c b)%string /\ has_char c b = false.
Proof.
  revert a b. induction s as [|x s IH]; cbn [rpartition]; [discriminate|]. intros a b.
  destruct (rpartition c s) as [[u v]|] eqn:R.
  - intros H. injection H as <- <-. destruct (IH u v eq_refl) as [-> Hv]. auto.
  - destruct (Ascii.eqb_spec x c) as [->|]; [|discriminate].
    intros H. injection H as <- <-. split; [reflexivity|]. now apply rpartition_none.
Qed.

Lemma extension_of_name stem ext :
  has_char "." ext = false ->
  extension (stem ++ "." ++ ext) = Ret (lower ext).
Proof.
  intros H. unfold extension, rsplit1.
  change (stem ++ "." ++ ext)%string with (stem ++ String "." ext)%string.
  now rewrite (rpartition_last "." stem ext H).
Qed.

(** ** [allowed_file] and [file_type] *)

(** X1. [allowed_file] never raises; it rejects a name without a dot, and
    for a name with a dot it looks at the text after the last dot only,
    whatever its case. *)
Theorem X1_allowed_file_last_extension : forall filename,
  (exists b, allowed_file filename = Ret b) /\
  (has_char "." filename = false -> allowed_file filename = Ret false) /\
  (forall stem ext,
     filename = (stem ++ "." ++ ext)%string -> has_char "." ext = false ->
     allowed_file filename = Ret (in_strings (lower ext) ALLOWED_EXTENSIONS)).
Proof.
  intros filename. split; [|split].
  - unfold allowed_file. destruct (has_char "." filename) eqn:H; [|eauto].
    unfold extension, rsplit1. destruct (rpartition "." filename) as [[a b]|] eqn:R.
    + cbn. eauto.
    + apply rpartition_none in R. congruence.
  - intros H. unfold allowed_file. now rewrite H.
  - intros stem ext -> H. unfold allowed_file. rewrite (extension_of_name stem ext H).
    destruct (has_char "." (stem ++ "." ++ ext)) eqn:D; [reflexivity|].
    apply rpartition_none in D.
    change (stem ++ "." ++ ext)%string with (stem ++ String "." ext)%string in D.
    rewrite (rpartition_last "." stem ext H) in D. discriminate.
Qed.

(** X2. The allow-list of the upload and the media kinds of the extraction
    client agree: a filename is allowed exactly when the client has a MIME
    type for its extension, and then [file_type] is "pdf" for
    application/pdf and "image" for the two image types. *)
Theorem X2_allowed_files_are_analysable : forall filename,
  (allowed_file filename = Ret true <->
   exists ext mime, nth_error (rsplit1 "." filename) 1 = Some ext /\
                    mime_type_of (lower ext) = Some mime) /\
  (forall ext mime,
     nth_error (rsplit1 "." filename) 1 = Some ext ->
     mime_type_of (lower ext) = Some mime ->
     file_type filename
     = Ret (if String.eqb mime "application/pdf" then "pdf" else "image")).
Proof.
  intros filename.
  assert (Dot : forall ext, nth_error (rsplit1 "." filename) 1 = Some ext ->
                            has_char "." filename = true).
  { intros ext. unfold rsplit1. destruct (rpartition "." filename) as [[a b]|] eqn:R.
    - intros _. destruct (has_char "." filename) eqn:H; [reflexivity|].
      apply rpartition_none in H. congruence.
    - cbn. discriminate. }
  split; [split|].
  - unfold allowed_file. destruct (has_char "." filename); [|discriminate].
    unfold extension. destruct (nth_error (rsplit1 "." filename) 1) as [ext|]; [|discriminate].
    intros H. injection H as H. exists ext. unfold mime_type_of.
    unfold ALLOWED_EXTENSIONS, in_strings in *. cbn [existsb] in *.
    destruct (String.eqb (lower ext) "jpg"), (String.eqb (lower ext) "jpeg"),
      (String.eqb (lower ext) "png"), (String.eqb (lower ext) "pdf"); cbn in *;
      try discriminate; eauto.
  - intros (ext & mime & He & Hm). unfold allowed_file, extension.
    rewrite (Dot ext He), He. f_equal. apply mime_type_of_some in Hm.
    unfold ALLOWED_EXTENSIONS, in_strings in *. cbn [existsb] in *.
    destruct (String.eqb (lower ext) "jpg"), (String.eqb (lower ext) "jpeg"),
      (String.eqb (lower ext) "png"), (String.eqb (lower ext) "pdf"); cbn in *;
      congruence.
  - intros ext mime He Hm. unfold file_type, extension. rewrite (Dot ext He), He.
    cbn [negb]. f_equal. unfold mime_type_of, in_strings in *. cbn [existsb] in *.
    destruct (String.eqb (lower ext) "jpg"), (String.eqb (lower ext) "jpeg"),
      (String.eqb (lower ext) "png"), (String.eqb (lower ext) "pdf"); cbn in *;
      try discriminate; injection Hm as <-; reflexivity.
Qed.

Lemma substring_split (s : string) : forall n,
  (n <= String.length s)%nat ->
  s = (substring 0 n s ++ substring n (String.length s - n) s)%string.
Proof.
  induction s as [|a s IH]; intros n H.
  - destruct n; [reflexivity|inversion H].
  - destruct n as [|n].
    + cbn [substring append String.length Nat.sub]. f_equal.
      clear. induction s as [|b s IH]; cbn; [reflexivity|now rewrite <- IH].
    + cbn [substring append String.length Nat.sub]. f_equal. apply IH. cbn in H. lia.
Qed.

Lemma endswith_split s p : endswith s p = true -> exists stem, s = (stem ++ p)%string.
Proof.
  unfold endswith. intros H. apply andb_prop in H. destruct H as [Hlen Heq].
  apply Nat.leb_le in Hlen. apply String.eqb_eq in Heq.
  exists (substring 0 (String.length s - String.length p) s).
  rewrite (substring_split s (String.length s - String.length p)) at 1 by lia.
  replace (String.length s - (String.length s - String.length p))%nat
    with (String.length p) by lia.
  now rewrite Heq.
Qed.

Lemma lower_app_inv (a b : string) : forall s,
  lower s = (a ++ b)%string ->
  exists x y, s = (x ++ y)%string /\ lower x = a /\ lower y = b.
Proof.
  induction a as [|c a IH]; intros s H.
  - exists EmptyString, s. auto.
  - destruct s as [|d s]; [discriminate|]. cbn [lower append] in H.
    injection H as Hc Hs. destruct (IH s Hs) as (x & y & -> & Hx & Hy).
    exists (String d x), y. cbn [append lower]. repeat split; congruence.
Qed.

Lemma lower_char_dot c : lower_char c = "."%char -> c = "."%char.
Proof.
  destruct c as [[] [] [] [] [] [] [] []]; vm_compute; intros H; congruence.
Qed.

Lemma lower_char_not_dot c : In (lower_char c) ["p"; "d"; "f"]%char -> c <> "."%char.
Proof. intros H ->. vm_compute in H. intuition discriminate. Qed.

Lemma lower_pdf_split name :
  endswith (lower name) ".pdf" = true ->
  exists stem ext, name = (stem ++ "." ++ ext)%string /\
                   lower ext = "pdf" /\ has_char "." ext = false.
Proof.
  intros H. apply endswith_split in H. destruct H as [stem' H].
  apply lower_app_inv in H. destruct H as (stem & tail & -> & _ & Ht).
  destruct tail as [|c [|c1 [|c2 [|c3 [|]]]]]; try discriminate.
  cbn [lower] in Ht. injection Ht as Hc H1 H2 H3.
  apply lower_char_dot in Hc. subst c.
  exists stem, (String c1 (String c2 (String c3 ""))). split; [reflexivity|].
  split; [cbn [lower]; congruence|].
  cbn [has_char].
  destruct (Ascii.eqb_spec c1 ".") as [E|_];
    [exfalso; apply (lower_char_not_dot c1); [rewrite H1; cbn; auto|exact E]|].
  destruct (Ascii.eqb_spec c2 ".") as [E|_];
    [exfalso; apply (lower_char_not_dot c2); [rewrite H2; cbn; auto|exact E]|].
  destruct (Ascii.eqb_spec c3 ".") as [E|_];
    [exfalso; apply (lower_char_not_dot c3); [rewrite H3; cbn; auto|exact E]|].
  reflexivity.
Qed.

Lemma path_join_suffix a b : exists prefix, path_join a b = (prefix ++ b)%string.
Proof.
  unfold path_join. destruct (startswith b "/"); [exists EmptyString; reflexivity|].
  destruct (String.eqb a "" || endswith a "/").
  - exists a. reflexivity.
  - exists (a ++ "/")%string. now rewrite append_assoc.
Qed.

(** ** The mailbox job and the extraction client *)

(** X3. The file of a PDF attachment is stored under a path whose
    extension the extraction client takes as application/pdf, whatever the
    case of the attachment's name, the upload folder and the time: the job
    never runs into the client's unsupported-type exit. *)
Theorem X3_pdf_attachment_is_analysed_as_pdf : forall env att w,
  is_pdf att = true ->
  exists ext,
    nth_error (rsplit1 "." (stored_path env att w)) 1 = Some ext /\
    mime_type_of (lower ext) = Some "application/pdf".
Proof.
  intros env att w H. unfold is_pdf in H. apply andb_prop in H. destruct H as [_ H].
  destruct (lower_pdf_split _ H) as (stem & ext & Hname & Hlow & Hdot).
  unfold stored_path, stored_name.
  destruct (path_join_suffix (UPLOAD_FOLDER env)
              (str_of_int (dt_timestamp (clock env (ticks w))) ++ "_" ++ att_filename att))
    as [prefix ->].
  rewrite Hname.
  replace (prefix ++ str_of_int (dt_timestamp (clock env (ticks w))) ++ "_" ++ stem ++ "." ++ ext)%string
    with ((prefix ++ str_of_int (dt_timestamp (clock env (ticks w))) ++ "_" ++ stem)
            ++ String "." ext)%string
    by (rewrite !append_assoc; reflexivity).
  exists ext. unfold rsplit1. rewrite (rpartition_last "." _ ext Hdot).
  split; [reflexivity|]. now rewrite Hlow.
Qed.

Lemma X3_pdf_attachment_witness :
  exists ext,
    nth_error (rsplit1 "." (stored_path example_env invoice_attachment empty_world)) 1
    = Some ext /\
    mime_type_of (lower ext) = Some "application/pdf".
Proof.
  exact (X3_pdf_attachment_is_analysed_as_pdf example_env invoice_attachment empty_world
           eq_refl).
Defined.

(** ** The routes on one bill *)

Lemma own_bill_or_404_run id current_user w :
  own_bill_or_404 id current_user w
  = match own_bill id current_user w with
    | Some bill => (Ret bill, w)
    | None => (Raise (HTTPException 404), w)
    end.
Proof.
  unfold own_bill_or_404, own_bill, bind, get, first_or_404, abort, ret, raise.
  now destruct (find _ (bills w)).
Qed.

Lemma own_bill_some id user w bill :
  own_bill id user w = Some bill ->
  In bill (bills w) /\ Bill.id bill = id /\ Bill.user_id bill = user.
Proof.
  unfold own_bill. intros H. apply find_some in H. destruct H as [Hin H].
  apply andb_prop in H. destruct H as [Hi Hu].
  apply Z.eqb_eq in Hi. apply Z.eqb_eq in Hu. auto.
Qed.

Lemma pay_run env id referrer current_user w bill :
  own_bill id current_user w = Some bill ->
  flask (pay env id referrer current_user) w
  = (Redirect (after_pay referrer),
     replaced (with_paid_at (Some (clock env (ticks w))) (with_status "bezahlt" bill))
       (set_ticks S w)).
Proof.
  intros H. unfold flask, pay. unfold bind at 1. rewrite own_bill_or_404_run, H.
  unfold bind at 1. unfold now at 1. unfold bind at 1. unfold commit_bill, modify.
  unfold after_pay, replaced.
  destruct referrer as [r|]; [|reflexivity].
  cbn [truthy_str]. now destruct (negb (String.eqb r "") && contains "bill" r).
Qed.

Lemma update_date_run id fields current_user w bill :
  own_bill id current_user w = Some bill ->
  flask (update_date id fields current_user) w
  = match form_get "due_date" fields with
    | Some date_str =>
        if String.eqb date_str "" then (Redirect "index", w)
        else match strptime_Ymd date_str with
             | Ret day => (Redirect "index", replaced (with_due_date (Some day) bill) w)
             | Raise _ => (Status 500, w)
             end
    | None => (Redirect "index", w)
    end.
Proof.
  intros H. unfold flask, update_date. unfold bind at 1. rewrite own_bill_or_404_run, H.
  destruct (form_get "due_date" fields) as [s|]; [|reflexivity].
  cbn [truthy_str]. destruct (String.eqb s ""); cbn [negb]; [reflexivity|].
  unfold bind. destruct (strptime_Ymd s) as [day|e] eqn:P; cbn [lift].
  - reflexivity.
  - rewrite (strptime_Ymd_raises s e P). reflexivity.
Qed.

Lemma routes_not_found :
  forall env float_of_str id referrer fields current_user w,
  own_bill id current_user w = None ->
  flask (pay env id referrer current_user) w = (Status 404, w) /\
  flask (update_date id fields current_user) w = (Status 404, w) /\
  flask (edit_bill float_of_str id fields current_user) w = (Status 404, w) /\
  flask (bill_details id current_user) w = (Status 404, w).
Proof.
  intros env float_of_str id referrer fields current_user w H.
  unfold flask, pay, update_date, edit_bill, bill_details.
  repeat split; unfold bind at 1; rewrite own_bill_or_404_run, H; reflexivity.
Qed.



(** X5. Paying a bill of the requester marks the row paid at the time of
    the request and changes no other row; from then on the reminder job has
    nothing to send for it, whatever its due date. The answer goes back to
    the referrer when that contains "bill", else to the index. *)
Theorem X5_paid_bill_gets_no_reminder : forall env id referrer current_user w bill,
  own_bill id current_user w = Some bill ->
  exists w',
    flask (pay env id referrer current_user) w = (Redirect (after_pay referrer), w') /\
    bills w'
    = map (fun b => if Bill.id b =? id
                    then with_paid_at (Some (clock env (ticks w))) (with_status "bezahlt" bill)
                    else b) (bills w) /\
    (forall b, In b (bills w') -> Bill.id b = id ->
       Bill.status b = "bezahlt" /\ Bill.paid_at b = Some (clock env (ticks w)) /\
       forall today, reminder_deliveries env today w' b = []).
Proof.
  intros env id referrer current_user w bill H.
  destruct (own_bill_some _ _ _ _ H) as (_ & Hid & _).
  eexists. split; [apply (pay_run env id referrer current_user w bill H)|].
  unfold replaced. cbn [bills set_bills set_ticks Bill.id with_paid_at with_status].
  rewrite Hid. split; [reflexivity|].
  intros b Hb Hbid. apply in_map_iff in Hb. destruct Hb as (b0 & Hb0 & _).
  destruct (Z.eqb_spec (Bill.id b0) id) as [E|E].
  - subst b. repeat split.
  - subst b. contradiction.
Qed.

Lemma X5_paid_bill_witness :
  exists w',
    flask (pay example_env 1 (Some "/bill/1") 1) reminder_world
    = (Redirect (after_pay (Some "/bill/1")), w') /\
    bills w'
    = map (fun b => if Bill.id b =? 1
                    then with_paid_at (Some (clock example_env (ticks reminder_world)))
                           (with_status "bezahlt" (example_bill 1 "offen" (Some 738959)))
                    else b) (bills reminder_world) /\
    (forall b, In b (bills w') -> Bill.id b = 1 ->
       Bill.status b = "bezahlt" /\
       Bill.paid_at b = Some (clock example_env (ticks reminder_world)) /\
       forall today, reminder_deliveries example_env today w' b = []).
Proof.
  exact (X5_paid_bill_gets_no_reminder example_env 1 (Some "/bill/1") 1 reminder_world
           (example_bill 1 "offen" (Some 738959)) eq_refl).
Defined.

Lemma edit_bill_run float_of_str id fields current_user w bill :
  own_bill id current_user w = Some bill ->
  flask (edit_bill float_of_str id fields current_user) w
  = match edited_amount float_of_str fields (edited_date fields (edited_title fields bill)) with
    | Ret bill' =>
        (Redirect "bill_details",
         set_flashes (fun fl => fl ++ [("Änderungen gespeichert.", "success")])
           (replaced bill' w))
    | Raise e => (match e with HTTPException code => Status code | _ => Status 500 end, w)
    end.
Proof.
  intros H. unfold flask, edit_bill. unfold bind at 1. rewrite own_bill_or_404_run, H.
  cbv zeta.
  assert (T : match form_get "title" fields with
              | Some title =>
                  if truthy_str (Some title) then with_title (PStr title) bill else bill
              | None => bill
              end = edited_title fields bill).
  { unfold edited_title. destruct (form_get "title" fields) as [t|]; [|reflexivity].
    cbn [truthy_str]. now destruct (String.eqb t ""). }
  rewrite T. generalize (edited_title fields bill). intros b1.
  unfold bind at 1.
  assert (D : match form_get "due_date" fields with
              | Some date_str =>
                  if truthy_str (Some date_str)
                  then try_except
                         (day <- lift (strptime_Ymd date_str) ;;
                          ret (with_due_date (Some day) b1))
                         (fun e => if is_ValueError e then ret b1 else raise e)
                  else ret b1
              | None => ret b1
              end w = (Ret (edited_date fields b1), w)).
  { unfold edited_date. destruct (form_get "due_date" fields) as [s0|]; [|reflexivity].
    cbn [truthy_str]. destruct (String.eqb s0 ""); cbn [negb]; [reflexivity|].
    unfold try_except, bind. destruct (strptime_Ymd s0) as [day|e] eqn:P; cbn [lift].
    - reflexivity.
    - rewrite (strptime_Ymd_raises s0 e P). reflexivity. }
  rewrite D. generalize (edited_date fields b1). intros b2.
  unfold bind at 1.
  assert (A : match form_get "amount" fields with
              | Some amount_str =>
                  if truthy_str (Some amount_str)
                  then try_except
                         (amount <- lift (float_of_str amount_str) ;;
                          ret (with_amount (PFloat amount) b2))
                         (fun e => if is_ValueError e then ret b2 else raise e)
                  else ret b2
              | None => ret b2
              end w
              = (match edited_amount float_of_str fields b2 with
                 | Ret b => Ret b
                 | Raise e => Raise e
                 end, w)).
  { unfold edited_amount. destruct (form_get "amount" fields) as [s0|]; [|reflexivity].
    cbn [truthy_str]. destruct (String.eqb s0 ""); cbn [negb]; [reflexivity|].
    unfold try_except, bind. destruct (float_of_str s0) as [a|e]; cbn [lift].
    - reflexivity.
    - unfold raise. now destruct (is_ValueError e). }
  rewrite A. destruct (edited_amount float_of_str fields b2) as [b3|e]; [reflexivity|].
  now destruct e.
Qed.

Lemma same_id_same_row (l : list Bill.t) bill b :
  NoDup (map Bill.id l) -> In bill l -> In b l -> Bill.id b = Bill.id bill -> b = bill.
Proof.
  induction l as [|a l IH]; intros N Hbill Hb E; [contradiction|].
  cbn [map] in N. inversion N as [|x xs Hnotin N']; subst.
  destruct Hbill as [<-|Hbill], Hb as [<-|Hb]; auto.
  - exfalso. apply Hnotin. rewrite <- E. now apply in_map.
  - exfalso. apply Hnotin. rewrite E. now apply in_map.
Qed.

Lemma others_replaced user bill' w :
  (forall b, In b (bills w) -> Bill.id b = Bill.id bill' -> Bill.user_id b = user) ->
  Bill.user_id bill' = user ->
  others user (replaced bill' w) = others user w.
Proof.
  intros Own Hu. unfold others, replaced. cbn [bills set_bills].
  induction (bills w) as [|a l IH]; [reflexivity|]. cbn [map filter].
  rewrite IH by (intros b Hb; apply Own; now right).
  destruct (Z.eqb_spec (Bill.id a) (Bill.id bill')) as [E|E]; [|reflexivity].
  rewrite Hu, (Own a (or_introl eq_refl) E), Z.eqb_refl. reflexivity.
Qed.

Lemma others_after_delete user bill w :
  (forall b, In b (bills w) -> Bill.id b = Bill.id bill -> Bill.user_id b = user) ->
  filter (fun b => negb (Bill.user_id b =? user))
    (filter (fun b => negb (Bill.id b =? Bill.id bill)) (bills w))
  = others user w.
Proof.
  intros Own. unfold others. induction (bills w) as [|a l IH]; [reflexivity|].
  cbn [filter]. specialize (IH (fun b Hb => Own b (or_intror Hb))).
  destruct (Z.eqb_spec (Bill.id a) (Bill.id bill)) as [E|E]; cbn [negb filter].
  - rewrite (Own a (or_introl eq_refl) E), Z.eqb_refl. exact IH.
  - now rewrite IH.
Qed.

(** X6. Whatever a user asks to pay, re-date, edit or delete, the bills of
    the other users stay as they are, in a table whose ids are unique. *)
Theorem X6_routes_keep_the_bills_of_others :
  forall env float_of_str id referrer fields current_user w,
  ids_unique w ->
  others current_user (snd (flask (pay env id referrer current_user) w))
  = others current_user w /\
  others current_user (snd (flask (update_date id fields current_user) w))
  = others current_user w /\
  others current_user (snd (flask (edit_bill float_of_str id fields current_user) w))
  = others current_user w /\
  others current_user (snd (flask (delete_bill env id current_user) w))
  = others current_user w.
Proof.
  intros env float_of_str id referrer fields current_user w N.
  destruct (own_bill id current_user w) as [bill|] eqn:H.
  2:{ destruct (routes_not_found env float_of_str id referrer fields
                  current_user w H) as (-> & -> & -> & _).
      repeat split. rewrite delete_bill_run. unfold own_bill in H. now rewrite H. }
  destruct (own_bill_some _ _ _ _ H) as (Hin & Hid & Hu).
  assert (Own : forall b, In b (bills w) -> Bill.id b = Bill.id bill ->
                          Bill.user_id b = current_user).
  { intros b Hb E. now rewrite (same_id_same_row _ bill b N Hin Hb E). }
  repeat split.
  - rewrite (pay_run env id referrer current_user w bill H). cbn [snd].
    apply (others_replaced current_user _ (set_ticks S w)); [exact Own|exact Hu].
  - rewrite (update_date_run id fields current_user w bill H).
    destruct (form_get "due_date" fields) as [s0|]; [|reflexivity].
    destruct (String.eqb s0 ""); [reflexivity|].
    destruct (strptime_Ymd s0); [|reflexivity]. cbn [snd].
    apply others_replaced; [exact Own|exact Hu].
  - rewrite (edit_bill_run float_of_str id fields current_user w bill H).
    destruct (edited_amount _ _ _) as [bill'|e] eqn:Ed; [|reflexivity]. cbn [snd].
    assert (Same : Bill.id bill' = Bill.id bill /\ Bill.user_id bill' = Bill.user_id bill).
    { unfold edited_amount, edited_date, edited_title in Ed.
      destruct (form_get "title" fields) as [t|]; [destruct (String.eqb t "")|];
        (destruct (form_get "due_date" fields) as [s0|];
           [destruct (String.eqb s0 ""); [|destruct (strptime_Ymd s0) as [day|e1]]|]);
        (destruct (form_get "amount" fields) as [a0|];
           [destruct (String.eqb a0 "");
              [|destruct (float_of_str a0) as [x|e2]; [|destruct (is_ValueError e2)]]|]);
        try discriminate; injection Ed as <-; split; reflexivity. }
    destruct Same as [Si Su].
    change (others current_user (replaced bill' w) = others current_user w).
    apply others_replaced; [rewrite Si; exact Own|congruence].
  - rewrite delete_bill_run. fold (own_bill id current_user w). rewrite H. cbn [snd].
    unfold others at 1.
    cbn [bills set_flashes delete_row set_bill_files set_bills set_files].
    now apply others_after_delete.
Qed.

Lemma X6_routes_keep_others_witness :
  others 1 (snd (flask (pay example_env 7 None 1) archive_world)) = others 1 archive_world /\
  others 1 (snd (flask (update_date 7 [("due_date", "2024-03-14")] 1) archive_world))
  = others 1 archive_world /\
  others 1 (snd (flask (edit_bill (fun _ => Raise ValueError) 7
                          [("due_date", "2024-03-14")] 1) archive_world))
  = others 1 archive_world /\
  others 1 (snd (flask (delete_bill example_env 7 1) archive_world)) = others 1 archive_world.
Proof.
  apply (X6_routes_keep_the_bills_of_others example_env (fun _ => Raise ValueError) 7 None
           [("due_date", "2024-03-14")] 1 archive_world).
  unfold ids_unique. simpl. repeat constructor; simpl; intuition discriminate.
Defined.

Lemma edited_fields float_of_str fields bill bill' :
  edited_amount float_of_str fields (edited_date fields (edited_title fields bill)) = Ret bill' ->
  Bill.id bill' = Bill.id bill /\
  (Bill.filename bill' = Bill.filename bill /\ Bill.status bill' = Bill.status bill /\
   Bill.user_id bill' = Bill.user_id bill /\ Bill.created_at bill' = Bill.created_at bill /\
   Bill.paid_at bill' = Bill.paid_at bill) /\
  (empty_field (form_get "title" fields) = true -> Bill.title bill' = Bill.title bill) /\
  (empty_field (form_get "due_date" fields) = true ->
   Bill.due_date bill' = Bill.due_date bill) /\
  (empty_field (form_get "amount" fields) = true -> Bill.amount bill' = Bill.amount bill).
Proof.
  unfold edited_amount, edited_date, edited_title, empty_field, truthy_str.
  destruct (form_get "title" fields) as [t|]; [destruct (String.eqb t "")|];
    (destruct (form_get "due_date" fields) as [s0|];
       [destruct (String.eqb s0 ""); [|destruct (strptime_Ymd s0) as [day|e1]]|]);
    (destruct (form_get "amount" fields) as [a0|];
       [destruct (String.eqb a0 "");
          [|destruct (float_of_str a0) as [x|e2]; [|destruct (is_ValueError e2)]]|]);
    intros Ed; try discriminate; injection Ed as <-; cbn;
    repeat split; intros; try reflexivity; discriminate.
Qed.



(** X8. Editing a bill of the requester changes that row only, and in it
    only the title, the due date and the amount: a field of the form that is
    missing or empty leaves the stored value, so no value can be cleared this
    way; filename, status, owner and both timestamps are never touched. *)
Theorem X8_edit_bill_changes_only_what_is_given :
  forall float_of_str id fields current_user w bill r w',
  ids_unique w ->
  own_bill id current_user w = Some bill ->
  flask (edit_bill float_of_str id fields current_user) w = (r, w') ->
  (forall b, In b (bills w) -> Bill.id b <> id -> In b (bills w')) /\
  (forall b, In b (bills w') -> Bill.id b = id ->
     (Bill.filename b = Bill.filename bill /\ Bill.status b = Bill.status bill /\
      Bill.user_id b = Bill.user_id bill /\ Bill.created_at b = Bill.created_at bill /\
      Bill.paid_at b = Bill.paid_at bill) /\
     (empty_field (form_get "title" fields) = true -> Bill.title b = Bill.title bill) /\
     (empty_field (form_get "due_date" fields) = true ->
      Bill.due_date b = Bill.due_date bill) /\
     (empty_field (form_get "amount" fields) = true -> Bill.amount b = Bill.amount bill)).
Proof.
  intros float_of_str id fields current_user w bill r w' N H Run.
  destruct (own_bill_some _ _ _ _ H) as (Hin & Hid & _).
  rewrite (edit_bill_run float_of_str id fields current_user w bill H) in Run.
  destruct (edited_amount _ _ _) as [bill'|e] eqn:Ed.
  - injection Run as <- <-.
    destruct (edited_fields _ _ _ _ Ed) as (Si & Keep & Rest).
    unfold replaced. cbn [bills set_flashes set_bills]. split.
    + intros b Hb Hne. apply in_map_iff. exists b. split; [|exact Hb].
      destruct (Z.eqb_spec (Bill.id b) (Bill.id bill')); [congruence|reflexivity].
    + intros b Hb Hbid. apply in_map_iff in Hb. destruct Hb as (b0 & Hb0 & _).
      destruct (Z.eqb_spec (Bill.id b0) (Bill.id bill')) as [E|E].
      * subst b. split; [exact Keep|exact Rest].
      * subst b. congruence.
  - injection Run as <- <-. split; [auto|].
    intros b Hb Hbid.
    rewrite (same_id_same_row _ bill b N Hin Hb) by congruence.
    repeat split.
Qed.

Lemma X8_edit_bill_witness :
  (forall b, In b (bills archive_world) -> Bill.id b <> 7 ->
     In b (bills (snd (flask (edit_bill (fun _ => Raise ValueError) 7
                                [("title", "Strom April"); ("amount", "")] 1)
                         archive_world)))) /\
  (forall b,
     In b (bills (snd (flask (edit_bill (fun _ => Raise ValueError) 7
                                [("title", "Strom April"); ("amount", "")] 1)
                         archive_world))) ->
     Bill.id b = 7 ->
     (Bill.filename b = "manual_1_0.pdf" /\ Bill.status b = "offen" /\
      Bill.user_id b = 1 /\
      Bill.created_at b = {| dt_date := 738900; dt_timestamp := 1705000000 |} /\
      Bill.paid_at b = None) /\
     (empty_field (form_get "title" [("title", "Strom April"); ("amount", "")]) = true ->
      Bill.title b = PStr "Strom") /\
     (empty_field (form_get "due_date" [("title", "Strom April"); ("amount", "")]) = true ->
      Bill.due_date b = None) /\
     (empty_field (form_get "amount" [("title", "Strom April"); ("amount", "")]) = true ->
      Bill.amount b = PNone)).
Proof.
  apply (X8_edit_bill_changes_only_what_is_given (fun _ => Raise ValueError) 7
           [("title", "Strom April"); ("amount", "")] 1 archive_world
           {| Bill.id := 7; Bill.title := PStr "Strom";
              Bill.filename := "manual_1_0.pdf"; Bill.amount := PNone;
              Bill.status := "offen"; Bill.due_date := None;
              Bill.created_at := {| dt_date := 738900; dt_timestamp := 1705000000 |};
              Bill.paid_at := None; Bill.user_id := 1 |}
           (fst (flask (edit_bill (fun _ => Raise ValueError) 7
                          [("title", "Strom April"); ("amount", "")] 1) archive_world))).
  - unfold ids_unique. simpl. repeat constructor; simpl; intuition discriminate.
  - reflexivity.
  - vm_compute. reflexivity.
Defined.

(** ** What the mail job adds *)

Lemma has_char_of_name c stem ext : has_char c (stem ++ String c ext) = true.
Proof.
  induction stem as [|a stem IH]; cbn [append has_char].
  - now rewrite Ascii.eqb_refl.
  - rewrite IH. apply orb_true_r.
Qed.

Lemma stored_name_is_pdf env att w :
  is_pdf att = true -> file_type (stored_name env att w) = Ret "pdf".
Proof.
  intros H. unfold is_pdf in H. apply andb_prop in H. destruct H as [_ H].
  destruct (lower_pdf_split _ H) as (stem & ext & Hname & Hlow & Hdot).
  unfold stored_name. rewrite Hname.
  replace (str_of_int (dt_timestamp (clock env (ticks w))) ++ "_" ++ stem ++ "." ++ ext)%string
    with ((str_of_int (dt_timestamp (clock env (ticks w))) ++ "_" ++ stem) ++ "." ++ ext)%string
    by (rewrite !append_assoc; reflexivity).
  unfold file_type. rewrite (extension_of_name _ ext Hdot).
  change (?a ++ "." ++ ext)%string with (a ++ String "." ext)%string.
  rewrite has_char_of_name. cbn [negb]. now rewrite Hlow.
Qed.

Lemma imports_for_refl owner w : pending w = [] -> imports_for owner w w.
Proof.
  intros P. repeat split; auto. exists []. split; [now rewrite app_nil_r|constructor].
Qed.

Lemma imports_for_trans owner w1 w2 w3 :
  imports_for owner w1 w2 -> imports_for owner w2 w3 -> imports_for owner w1 w3.
Proof.
  intros (P1 & U1 & (a1 & B1 & F1) & N1) (P2 & U2 & (a2 & B2 & F2) & N2).
  repeat split; try congruence; auto.
  exists (a1 ++ a2). split; [now rewrite B2, B1, app_assoc|]. apply Forall_app. auto.
Qed.

Lemma resolve_title_not_none ai subject : resolve_title ai subject <> PNone.
Proof.
  unfold resolve_title. destruct ai as [r|]; [|discriminate].
  destruct (truthy (r_title r)) eqn:T; [|discriminate].
  intros E. rewrite E in T. discriminate.
Qed.

Lemma NoDup_snoc {A} (l : list A) (x : A) : NoDup l -> ~ In x l -> NoDup (l ++ [x]).
Proof.
  induction l as [|a l IH]; intros N H; cbn [app].
  - constructor; [intros []|constructor].
  - inversion N as [|y ys Hy N']; subst. constructor.
    + rewrite in_app_iff. cbn [In]. intros [Ha|[E|[]]]; [contradiction|].
      apply H. now left.
    + apply IH; [exact N'|]. intros Hx. apply H. now right.
Qed.

Lemma process_attachment_imports env owner msg att found w r w1 :
  pending w = [] ->
  process_attachment env owner msg att found w = (r, w1) ->
  imports_for owner w w1.
Proof.
  intros P Run. pose proof (process_attachment_run env owner msg att found w P) as R.
  destruct (is_pdf att) eqn:Pdf.
  2:{ rewrite R in Run. injection Run as <- <-. now apply imports_for_refl. }
  destruct (open_wb env (stored_path env att w)) as [u|e].
  2:{ rewrite R in Run. injection Run as <- <-. repeat split; auto.
      exists []. split; [cbn; now rewrite app_nil_r|constructor]. }
  destruct R as (ai & out & _ & R). rewrite R in Run.
  destruct (accepted env (bills w) (resolved_bill env owner msg att w ai)) eqn:Acc.
  - injection Run as <- <-. repeat split; auto.
    + eexists. split; [reflexivity|]. constructor; [|constructor].
      unfold imported_for, row_of, resolved_bill.
      cbn [Bill.user_id Bill.status Bill.due_date Bill.paid_at Bill.title Bill.filename
           nb_user_id nb_due_date nb_title nb_filename].
      repeat split; try discriminate.
      * apply resolve_title_not_none.
      * now apply stored_name_is_pdf.
    + unfold filenames_unique, committed.
      cbn [bills set_bills set_ticks printed set_stdout stored_world set_files].
      intros N. rewrite map_app. cbn [map row_of Bill.filename].
      apply NoDup_snoc.
      * exact N.
      * unfold accepted, insert_error in Acc.
        destruct (existsb _ (bills w)) eqn:Ex; [discriminate|].
        intros Hin. apply in_map_iff in Hin. destruct Hin as (b & Hb & Hbin).
        assert (Hex : existsb (fun b => String.eqb (Bill.filename b)
                                (nb_filename (resolved_bill env owner msg att w ai)))
                              (bills w) = true).
        { apply existsb_exists. exists b. split; [exact Hbin|]. now apply String.eqb_eq. }
        congruence.
  - injection Run as <- <-. repeat split; auto.
    exists []. split; [cbn; now rewrite app_nil_r|constructor].
Qed.

Lemma attachments_import env owner msg (atts : list Attachment) : forall found w r w1,
  pending w = [] ->
  for_fold atts found (process_attachment env owner msg) w = (r, w1) ->
  imports_for owner w w1.
Proof.
  induction atts as [|att atts IH]; intros found w r w1 P Run; cbn [for_fold] in Run.
  - injection Run as <- <-. now apply imports_for_refl.
  - unfold bind in Run.
    destruct (process_attachment env owner msg att found w) as [[f|e] w0] eqn:Step.
    + pose proof (process_attachment_imports _ _ _ _ _ _ _ _ P Step) as I.
      apply (imports_for_trans owner w w0 w1 I).
      apply (IH f w0 r w1); [apply I|exact Run].
    + injection Run as <- <-. exact (process_attachment_imports _ _ _ _ _ _ _ _ P Step).
Qed.

Lemma dispatched_imports env owner title body user w :
  pending w = [] -> imports_for owner w (dispatched env title body user w).
Proof.
  intros P. repeat split; auto. exists []. split; [cbn; now rewrite app_nil_r|constructor].
Qed.

Lemma process_message_imports env owner msg w r w1 :
  pending w = [] ->
  process_message env owner msg w = (r, w1) ->
  imports_for owner w w1.
Proof.
  intros P Run. unfold process_message in Run.
  destruct (msg_attachments msg) as [|att atts].
  - injection Run as <- <-. now apply imports_for_refl.
  - unfold bind in Run.
    destruct (for_fold (att :: atts) false (process_attachment env owner msg) w)
      as [[f|e] w0] eqn:Loop.
    + pose proof (attachments_import _ _ _ _ _ _ _ _ P Loop) as I.
      destruct f.
      * rewrite send_notification_run in Run. injection Run as <- <-.
        apply (imports_for_trans owner w w0 _ I). apply dispatched_imports. apply I.
      * injection Run as <- <-. exact I.
    + injection Run as <- <-. exact (attachments_import _ _ _ _ _ _ _ _ P Loop).
Qed.

Lemma messages_import env owner (mailbox : gen Message) : forall w r w1,
  pending w = [] ->
  for_gen mailbox (process_message env owner) w = (r, w1) ->
  imports_for owner w w1.
Proof.
  induction mailbox as [|msg rest IH|e]; intros w r w1 P Run; cbn [for_gen] in Run.
  - injection Run as <- <-. now apply imports_for_refl.
  - unfold bind in Run.
    destruct (process_message env owner msg w) as [[u|e] w0] eqn:Step.
    + pose proof (process_message_imports _ _ _ _ _ _ P Step) as I.
      apply (imports_for_trans owner w w0 w1 I). apply (IH w0 r w1); [apply I|exact Run].
    + injection Run as <- <-. exact (process_message_imports _ _ _ _ _ _ P Step).
  - injection Run as <- <-. now apply imports_for_refl.
Qed.

Lemma process_mailbox_imports env server user password owner w :
  pending w = [] ->
  exists w', process_mailbox env server user password owner w = (Ret tt, w') /\
             imports_for owner w w'.
Proof.
  intros P. unfold process_mailbox, try_except, bind.
  destruct (imap_unseen env server user password) as [mailbox|e]; cbn [lift].
  - unfold ret at 1.
    destruct (for_gen mailbox (process_message env owner) w) as [[[]|e] w0] eqn:Loop.
    + exists w0. split; [reflexivity|]. exact (messages_import _ _ _ _ _ _ P Loop).
    + eexists. split; [reflexivity|].
      pose proof (messages_import _ _ _ _ _ _ P Loop) as I.
      apply (imports_for_trans owner w w0 _ I).
      destruct I as (P0 & _). repeat split; auto.
      exists []. split; [cbn; now rewrite app_nil_r|constructor].
  - unfold raise. eexists. split; [reflexivity|]. repeat split; auto.
    exists []. split; [cbn; now rewrite app_nil_r|constructor].
Qed.

(** X9. A run of the mailbox job, however it ends, adds bills at the end
    of the table and nothing else to it. Each bill it adds belongs to the
    owner given, is open and unpaid, has a due date and a title, and a stored
    filename that [file_type] shows as "pdf". Users and session are as
    before. *)
Theorem X9_mailbox_job_adds_open_pdf_bills_of_the_owner :
  forall env server user password owner w,
  pending w = [] ->
  exists w' added,
    process_mailbox env server user password owner w = (Ret tt, w') /\
    bills w' = bills w ++ added /\
    Forall (imported_for owner) added /\
    users w' = users w /\ pending w' = [].
Proof.
  intros env server user password owner w P.
  destruct (process_mailbox_imports env server user password owner w P)
    as (w' & Run & P' & U' & (added & B & F) & _).
  exists w', added. auto.
Qed.

Lemma X9_mailbox_job_witness :
  exists w' added,
    process_mailbox zero_env "imap.example.org" "anna" "pw" example_owner empty_world
    = (Ret tt, w') /\
    bills w' = bills empty_world ++ added /\
    Forall (imported_for example_owner) added /\
    users w' = users empty_world /\ pending w' = [].
Proof.
  exact (X9_mailbox_job_adds_open_pdf_bills_of_the_owner zero_env "imap.example.org" "anna"
           "pw" example_owner empty_world eq_refl).
Defined.

(** X10. The mailbox job keeps the stored filenames of the bills pairwise
    different: a bill whose filename is taken is not committed, so a table
    with unique filenames has unique filenames after every run. *)
Theorem X10_mailbox_job_keeps_filenames_unique :
  forall env server user password owner w,
  pending w = [] ->
  filenames_unique w ->
  filenames_unique (snd (process_mailbox env server user password owner w)).
Proof.
  intros env server user password owner w P N.
  destruct (process_mailbox_imports env server user password owner w P)
    as (w' & Run & _ & _ & _ & Keep).
  rewrite Run. now apply Keep.
Qed.

Lemma X10_filenames_unique_witness :
  filenames_unique
    (snd (process_mailbox zero_env "imap.example.org" "anna" "pw" example_owner taken_world)).
Proof.
  apply (X10_mailbox_job_keeps_filenames_unique zero_env "imap.example.org" "anna" "pw"
           example_owner taken_world).
  - reflexivity.
  - unfold filenames_unique. simpl. repeat constructor. simpl. intuition.
Defined.

(** ** The mail job of all users *)

Lemma imports_refl w : pending w = [] -> imports w w.
Proof.
  intros P. repeat split; auto. exists []. split; [now rewrite app_nil_r|constructor].
Qed.

Lemma imports_trans w1 w2 w3 : imports w1 w2 -> imports w2 w3 -> imports w1 w3.
Proof.
  intros (P1 & U1 & (a1 & B1 & F1) & N1) (P2 & U2 & (a2 & B2 & F2) & N2).
  repeat split; try congruence; auto.
  exists (a1 ++ a2). split; [now rewrite B2, B1, app_assoc|]. apply Forall_app.
  split; [exact F1|]. rewrite U1 in F2. exact F2.
Qed.

Lemma imports_of_owner owner w w' :
  In owner (users w) -> imports_for owner w w' -> imports w w'.
Proof.
  intros Hin (P & U & (added & B & F) & N). repeat split; auto.
  exists added. split; [exact B|]. eapply Forall_impl; [|exact F]. cbn. eauto.
Qed.

Lemma user_mailboxes_import env (l : list User.t) : forall w,
  pending w = [] ->
  (forall u, In u l -> In u (users w)) ->
  exists w',
    for_each l (fun u =>
      if truthy_str (User.imap_server u) && truthy_str (User.imap_user u)
         && truthy_str (User.imap_password u)
      then process_mailbox env (text_of (User.imap_server u)) (text_of (User.imap_user u))
             (text_of (User.imap_password u)) u
      else ret tt) w = (Ret tt, w') /\
    imports w w'.
Proof.
  induction l as [|u l IH]; intros w P Sub; cbn [for_each].
  - exists w. split; [reflexivity|now apply imports_refl].
  - unfold bind at 1.
    assert (Step : exists w0,
              (if truthy_str (User.imap_server u) && truthy_str (User.imap_user u)
                  && truthy_str (User.imap_password u)
               then process_mailbox env (text_of (User.imap_server u))
                      (text_of (User.imap_user u)) (text_of (User.imap_password u)) u
               else ret tt) w = (Ret tt, w0) /\ imports w w0).
    { destruct (truthy_str (User.imap_server u) && truthy_str (User.imap_user u)
                && truthy_str (User.imap_password u)).
      - destruct (process_mailbox_imports env (text_of (User.imap_server u))
                    (text_of (User.imap_user u)) (text_of (User.imap_password u)) u w P)
          as (w0 & Run & I).
        exists w0. split; [exact Run|]. apply (imports_of_owner u); [|exact I].
        apply Sub. now left.
      - exists w. split; [reflexivity|now apply imports_refl]. }
    destruct Step as (w0 & Run & I). rewrite Run.
    pose proof I as (P0 & U0 & _).
    destruct (IH w0 P0) as (w' & Run' & I').
    { intros v Hv. rewrite U0. apply Sub. now right. }
    exists w'. split; [exact Run'|].
    exact (imports_trans w w0 w' I I').
Qed.

Lemma fetch_emails_imports env cfg w :
  pending w = [] ->
  exists w', fetch_emails env cfg w = (Ret tt, w') /\ imports w w'.
Proof.
  intros P. unfold fetch_emails. unfold bind at 1.
  assert (Global : exists w0,
            (if truthy_str (IMAP_SERVER cfg) && truthy_str (IMAP_PASSWORD cfg)
                && truthy_str (IMAP_USER cfg) && truthy_str (IMAP_OWNER_EMAIL cfg)
             then
               owner <- get (fun w => find (fun u => String.eqb (User.email u)
                                                      (text_of (IMAP_OWNER_EMAIL cfg)))
                                           (users w)) ;;
               match owner with
               | Some o =>
                   process_mailbox env (text_of (IMAP_SERVER cfg)) (text_of (IMAP_USER cfg))
                     (text_of (IMAP_PASSWORD cfg)) o
               | None => ret tt
               end
             else ret tt) w = (Ret tt, w0) /\ imports w w0).
  { destruct (truthy_str (IMAP_SERVER cfg) && truthy_str (IMAP_PASSWORD cfg)
              && truthy_str (IMAP_USER cfg) && truthy_str (IMAP_OWNER_EMAIL cfg)).
    - unfold bind, get.
      destruct (find _ (users w)) as [o|] eqn:F.
      + destruct (process_mailbox_imports env (text_of (IMAP_SERVER cfg))
                    (text_of (IMAP_USER cfg)) (text_of (IMAP_PASSWORD cfg)) o w P)
          as (w0 & Run & I).
        exists w0. split; [exact Run|]. apply (imports_of_owner o); [|exact I].
        apply find_some in F. apply F.
      + exists w. split; [reflexivity|now apply imports_refl].
    - exists w. split; [reflexivity|now apply imports_refl]. }
  destruct Global as (w0 & Run & I). rewrite Run.
  unfold bind at 1. unfold get at 1.
  pose proof I as (P0 & U0 & _).
  destruct (user_mailboxes_import env
              (filter (fun u => match User.imap_server u with Some _ => true | None => false end)
                      (users w0)) w0 P0) as (w' & Run' & I').
  { intros u Hu. apply filter_In in Hu. apply Hu. }
  exists w'. split; [exact Run'|].
  exact (imports_trans w w0 w' I I').
Qed.

(** X11. The mail job of all users always returns. It only adds bills, at
    the end of the table, each an open PDF bill of a user of the table (the
    user whose mailbox it came from, or the owner of the process-wide
    mailbox); it keeps the users, and keeps unique filenames unique. *)
Theorem X11_fetch_emails_adds_bills_of_known_users : forall env cfg w,
  pending w = [] ->
  exists w' added,
    fetch_emails env cfg w = (Ret tt, w') /\
    bills w' = bills w ++ added /\
    Forall (fun b => exists u, In u (users w) /\ imported_for u b) added /\
    users w' = users w /\
    (filenames_unique w -> filenames_unique w').
Proof.
  intros env cfg w P.
  destruct (fetch_emails_imports env cfg w P) as (w' & Run & _ & U & (added & B & F) & N).
  exists w', added. auto.
Qed.

Lemma X11_fetch_emails_witness :
  exists w' added,
    fetch_emails zero_env
      {| IMAP_SERVER := Some "imap.example.org"; IMAP_USER := Some "inbox";
         IMAP_PASSWORD := Some "pw"; IMAP_OWNER_EMAIL := Some "anna@example.org" |}
      reminder_world = (Ret tt, w') /\
    bills w' = bills reminder_world ++ added /\
    Forall (fun b => exists u, In u (users reminder_world) /\ imported_for u b) added /\
    users w' = users reminder_world /\
    (filenames_unique reminder_world -> filenames_unique w').
Proof.
  exact (X11_fetch_emails_adds_bills_of_known_users zero_env
           {| IMAP_SERVER := Some "imap.example.org"; IMAP_USER := Some "inbox";
              IMAP_PASSWORD := Some "pw"; IMAP_OWNER_EMAIL := Some "anna@example.org" |}
           reminder_world eq_refl).
Defined.

Lemma no_mailbox_no_effect env (l : list User.t) : forall w,
  (forall u, In u l -> has_mailbox u = false) ->
  for_each l (fun u =>
    if truthy_str (User.imap_server u) && truthy_str (User.imap_user u)
       && truthy_str (User.imap_password u)
    then process_mailbox env (text_of (User.imap_server u)) (text_of (User.imap_user u))
           (text_of (User.imap_password u)) u
    else ret tt) w = (Ret tt, w).
Proof.
  induction l as [|u l IH]; intros w H; cbn [for_each]; [reflexivity|].
  unfold bind. pose proof (H u (or_introl eq_refl)) as Hu. unfold has_mailbox in Hu.
  rewrite Hu. unfold ret at 1. apply IH. intros v Hv. apply H. now right.
Qed.

(** X12. Without a complete mailbox, nothing is fetched: when the
    process-wide mailbox is incomplete or its owner's email is not the email
    of a user, and no user has server, user name and password all set, the
    mail job leaves the world as it is, and no mailbox is opened. *)
Theorem X12_fetch_emails_without_mailboxes : forall env cfg w,
  (global_mailbox cfg = true ->
   find (fun u => String.eqb (User.email u) (text_of (IMAP_OWNER_EMAIL cfg))) (users w) = None) ->
  (forall u, In u (users w) -> has_mailbox u = false) ->
  fetch_emails env cfg w = (Ret tt, w).
Proof.
  intros env cfg w G U. unfold fetch_emails, global_mailbox in *. unfold bind at 1.
  destruct (truthy_str (IMAP_SERVER cfg) && truthy_str (IMAP_PASSWORD cfg)
            && truthy_str (IMAP_USER cfg) && truthy_str (IMAP_OWNER_EMAIL cfg)).
  - unfold bind at 1. unfold get at 1. rewrite (G eq_refl). unfold ret at 1.
    unfold bind, get. apply no_mailbox_no_effect.
    intros u Hu. apply filter_In in Hu. now apply U.
  - unfold ret at 1. unfold bind, get. apply no_mailbox_no_effect.
    intros u Hu. apply filter_In in Hu. now apply U.
Qed.

Lemma X12_fetch_emails_witness :
  fetch_emails zero_env
    {| IMAP_SERVER := Some "imap.example.org"; IMAP_USER := Some "inbox";
       IMAP_PASSWORD := Some ""; IMAP_OWNER_EMAIL := Some "anna@example.org" |}
    reminder_world
  = (Ret tt, reminder_world).
Proof.
  apply (X12_fetch_emails_without_mailboxes zero_env
           {| IMAP_SERVER := Some "imap.example.org"; IMAP_USER := Some "inbox";
              IMAP_PASSWORD := Some ""; IMAP_OWNER_EMAIL := Some "anna@example.org" |}
           reminder_world).
  - discriminate.
  - simpl. intros u [<-|[]]. reflexivity.
Defined.
